(** * ping-tool: a shallow embedding of [main.go] and its verified properties

    The program is a sequential command-line prober: it parses its flags,
    prints a header, runs a driver loop that probes a target over HTTP(S)
    or TCP, prints one line per attempt and finally a summary block.

    - Go's [int], [int64] and [time.Duration] are 64-bit two's-complement
      integers: they are modelled as [Z] with the wrap-around written out
      ([wrap64]).
    - Go's [float64] is IEEE-754 binary64 with round-to-nearest-even; it is
      modelled by [float64] below, whose operations compute the exact
      rational result and round it to 53 bits.
    - Go strings are byte strings, like Rocq's [string].
    - The network, the clock and package [strings]' Unicode case mappings are
      the program's environment: they are the fields of a [World].
    - Printing, sleeping, network calls and [os.Exit] are effects in the
      small monad [IO], which threads the number of network calls made so
      far and the trace of observable events. *)

From Stdlib Require Import ZArith Lia List String Ascii Bool.
From Stdlib Require Import Floats.SpecFloat.
From Stdlib Require Import Reals Lra.
Import ListNotations.

Local Open Scope string_scope.
Local Open Scope list_scope.
Local Open Scope Z_scope.

(* ================================================================== *)
(** * Part I: the model *)
(* ================================================================== *)

(** ** Machine integers *)

Definition min_int64 : Z := - 2 ^ 63.
Definition max_int64 : Z := 2 ^ 63 - 1.

(** Two's-complement wrap-around of a 64-bit signed result. *)
Definition wrap64 (z : Z) : Z := (z + 2 ^ 63) mod 2 ^ 64 - 2 ^ 63.

(** Conversion [uint64(x)] of a signed 64-bit value. *)
Definition u64 (z : Z) : Z := z mod 2 ^ 64.

Definition in_int64 (z : Z) : Prop := min_int64 <= z <= max_int64.

(** ** [time.Duration] *)

Module Duration.

Definition Millisecond : Z := 1000000.
Definition Second : Z := 1000000000.

(** [time.Duration(x) * time.Second] *)
Definition seconds (x : Z) : Z := wrap64 (x * Second).

(** [lessThanHalf] of package [time]:
    [uint64(x)+uint64(x) < uint64(y)]. *)
Definition lessThanHalf (x y : Z) : bool :=
  (u64 x + u64 x) mod 2 ^ 64 <? u64 y.

(** [Duration.Round] of package [time]: the nearest multiple of [m],
    halfway values away from zero, saturating at the ends of the range;
    [d] itself when [m <= 0]. *)
Definition Round (d m : Z) : Z :=
  if m <=? 0 then d
  else
    let r := Z.rem d m in
    if d <? 0 then
      let r := - r in
      if lessThanHalf r m then wrap64 (d + r)
      else
        let d1 := wrap64 (wrap64 (d - m) + r) in
        if d1 <? d then d1 else min_int64
    else
      if lessThanHalf r m then wrap64 (d - r)
      else
        let d1 := wrap64 (wrap64 (d + m) - r) in
        if d1 >? d then d1 else max_int64.

End Duration.

(** ** [float64]

    A finite value [FFin m e] denotes [m * 2^e]. Zeros carry no sign: no
    operation of this program can produce a negative zero, since every
    float it handles is an integer, a quotient of two integers or such a
    quotient times 100. *)

Inductive float64 : Type :=
| FNaN
| FInf (neg : bool)
| FFin (m e : Z).

(** Nearest integer to [N / D], ties to even ([0 <= N], [0 < D]). *)
Definition rne_div (N D : Z) : Z :=
  let q := N / D in
  let r := N mod D in
  match 2 * r ?= D with
  | Lt => q
  | Gt => q + 1
  | Eq => if Z.even q then q else q + 1
  end.

(** [floor (log2 (N / D))] for [0 < N] and [0 < D]. *)
Definition ilog2_rat (N D : Z) : Z :=
  let k := Z.log2 N - Z.log2 D in
  if N * 2 ^ Z.max 0 (- k) <? D * 2 ^ Z.max 0 k then k - 1 else k.

(** Rounding of the positive rational [N / D] to binary64: 53 significant
    bits, exponent of the last place at least -1074 (subnormals), overflow
    to infinity above exponent 971. *)
Definition round_pos (N D : Z) : float64 :=
  let e := Z.max (ilog2_rat N D - 52) (-1074) in
  let m := rne_div (N * 2 ^ Z.max 0 (- e)) (D * 2 ^ Z.max 0 e) in
  let '(m, e) := if m =? 2 ^ 53 then (2 ^ 52, e + 1) else (m, e) in
  if e >? 971 then FInf false else FFin m e.

Definition fneg (x : float64) : float64 :=
  match x with
  | FNaN => FNaN
  | FInf s => FInf (negb s)
  | FFin m e => FFin (- m) e
  end.

(** Rounding of the rational [N / D], [0 < D]. *)
Definition round_rat (N D : Z) : float64 :=
  match N with
  | 0 => FFin 0 0
  | Zpos _ => round_pos N D
  | Zneg _ => fneg (round_pos (- N) D)
  end.

(** The conversion [float64(z)] of an integer. *)
Definition of_int (z : Z) : float64 := round_rat z 1.

(** [x / y] on [float64]. *)
Definition fdiv (x y : float64) : float64 :=
  match x, y with
  | FNaN, _ | _, FNaN => FNaN
  | FInf _, FInf _ => FNaN
  | FInf s, FFin m _ => FInf (xorb s (m <? 0))
  | FFin _ _, FInf _ => FFin 0 0
  | FFin m1 e1, FFin m2 e2 =>
      if m2 =? 0 then (if m1 =? 0 then FNaN else FInf (m1 <? 0))
      else round_rat (m1 * Z.sgn m2 * 2 ^ Z.max 0 (e1 - e2))
                     (Z.abs m2 * 2 ^ Z.max 0 (e2 - e1))
  end.

(** [x * y] on [float64]. *)
Definition fmul (x y : float64) : float64 :=
  match x, y with
  | FNaN, _ | _, FNaN => FNaN
  | FInf s, FInf t => FInf (xorb s t)
  | FInf s, FFin m _ | FFin m _, FInf s =>
      if m =? 0 then FNaN else FInf (xorb s (m <? 0))
  | FFin m1 e1, FFin m2 e2 =>
      round_rat (m1 * m2 * 2 ^ Z.max 0 (e1 + e2)) (2 ^ Z.max 0 (- (e1 + e2)))
  end.

(** Comparison; [None] when an operand is NaN (every Go comparison
    operator but [!=] is then false). *)
Definition fcompare (x y : float64) : option comparison :=
  match x, y with
  | FNaN, _ | _, FNaN => None
  | FInf s, FInf t =>
      Some (match s, t with true, false => Lt | false, true => Gt | _, _ => Eq end)
  | FInf s, FFin _ _ => Some (if s then Lt else Gt)
  | FFin _ _, FInf s => Some (if s then Gt else Lt)
  | FFin m1 e1, FFin m2 e2 =>
      let e := Z.min e1 e2 in
      Some (m1 * 2 ^ (e1 - e) ?= m2 * 2 ^ (e2 - e))
  end.

(** Go's [x == y] and [x >= y] on [float64]. *)
Definition feqb (x y : float64) : bool :=
  match fcompare x y with Some Eq => true | _ => false end.

Definition fgeb (x y : float64) : bool :=
  match fcompare x y with Some (Eq | Gt) => true | _ => false end.

(** ** Real values of floats

    The value of the finite float [FFin m e] as a real number. The real
    numbers serve the proofs about rounding only. *)

Definition pow2 (e : Z) : R := powerRZ 2 e.
Definition F2R (m e : Z) : R := (IZR m * pow2 e)%R.

(** The verb [%.1f] of package [fmt]: the decimal with one fractional digit
    nearest to the exact value of the float, ties to even. [fmt_tenths] is
    that decimal counted in tenths. *)
Definition fmt_tenths (x : float64) : option Z :=
  match x with
  | FFin m e =>
      Some (Z.sgn m * rne_div (Z.abs m * 10 * 2 ^ Z.max 0 e) (2 ^ Z.max 0 (- e)))
  | _ => None
  end.

Definition digit (d : Z) : string :=
  String (ascii_of_nat (48 + Z.to_nat d)) "".

Fixpoint decimal_fuel (fuel : nat) (z : Z) : string :=
  match fuel with
  | O => ""
  | S fuel' =>
      if z <? 10 then digit z
      else
        let high := decimal_fuel fuel' (z / 10) in
        let low := digit (z mod 10) in
        (high ++ low)%string
  end.

(** Decimal digits of a natural number. *)
Definition decimal (z : Z) : string := decimal_fuel (S (Z.to_nat (Z.log2 z))) z.

Definition fmt_f1 (x : float64) : string :=
  match x with
  | FNaN => "NaN"
  | FInf true => "-Inf"
  | FInf false => "+Inf"
  | FFin m _ =>
      match fmt_tenths x with
      | Some t =>
          let sign := if m <? 0 then "-" else "" in
          let whole := decimal (Z.abs t / 10) in
          let tenth := digit (Z.abs t mod 10) in
          (sign ++ whole ++ "." ++ tenth)%string
      | None => ""
      end
  end.

(** Link with the Standard Library's specification of binary64. *)
Definition to_spec (x : float64) : spec_float :=
  match x with
  | FNaN => S754_nan
  | FInf s => S754_infinity s
  | FFin (Zpos m) e => S754_finite false m e
  | FFin (Zneg m) e => S754_finite true m e
  | FFin 0 _ => S754_zero false
  end.

Definition spec_eqb (a b : spec_float) : bool :=
  match a, b with
  | S754_zero s, S754_zero t => Bool.eqb s t
  | S754_infinity s, S754_infinity t => Bool.eqb s t
  | S754_nan, S754_nan => true
  | S754_finite s m e, S754_finite t n f =>
      Bool.eqb s t && Pos.eqb m n && Z.eqb e f
  | _, _ => false
  end.

(** The expression [float64(a) / float64(b) * 100] of [printSummary]. *)
Definition percent (a b : Z) : float64 :=
  fmul (fdiv (of_int a) (of_int b)) (of_int 100).

(** The same expression on the Standard Library's binary64. *)
Definition spec_percent (a b : Z) : spec_float :=
  SFmul 53 1024
    (SFdiv 53 1024 (binary_normalize 53 1024 a 0 false)
                   (binary_normalize 53 1024 b 0 false))
    (binary_normalize 53 1024 100 0 false).

(** All pairs [(s, n)] with [1 <= n <= k] and [0 <= s <= n]. *)
Definition ratios (k : nat) : list (Z * Z) :=
  flat_map (fun n => map (fun s => (Z.of_nat s, Z.of_nat n)) (seq 0 (S n)))
           (seq 1 k).

(** ** Package [strings] *)

Definition HasPrefix (s prefix : string) : bool := String.prefix prefix s.

Fixpoint Contains (s substr : string) : bool :=
  if String.prefix substr s then true
  else
    match s with
    | EmptyString => false
    | String _ s' => Contains s' substr
    end.

(** Lower-casing of the letters A-Z; it agrees with [strings.ToLower] on
    ASCII strings and serves as the case mapping of the sample worlds. *)
Definition lower_ascii (c : ascii) : ascii :=
  let n := nat_of_ascii c in
  if ((65 <=? n) && (n <=? 90))%nat then ascii_of_nat (n + 32) else c.

Fixpoint ascii_lower (s : string) : string :=
  match s with
  | EmptyString => EmptyString
  | String c s' => String (lower_ascii c) (ascii_lower s')
  end.

Definition upper_ascii (c : ascii) : ascii :=
  let n := nat_of_ascii c in
  if ((97 <=? n) && (n <=? 122))%nat then ascii_of_nat (n - 32) else c.

Fixpoint ascii_upper (s : string) : string :=
  match s with
  | EmptyString => EmptyString
  | String c s' => String (upper_ascii c) (ascii_upper s')
  end.

(** ** Data model *)

Definition esc : ascii := ascii_of_nat 27.
Definition ColorRed : string := String esc "[31m".
Definition ColorGreen : string := String esc "[32m".
Definition ColorYellow : string := String esc "[33m".

(** [type PingResult struct]; a nil [Error] is [None]. *)
Record PingResult : Type := {
  Target : string;
  Success : bool;
  ResponseTime : Z;
  StatusCode : Z;
  Error : option string
}.

(** The command-line flags after [flag.Parse]. The variable [test] of
    [main] is bound to its flag and read by no statement (a Go compiler
    refuses such a variable); the field stands for the flag, and no
    definition below reads it. *)
Record Config : Type := {
  target : string;
  pingType : string;
  count : Z;
  timeout : Z;
  interval : Z;
  continuous : bool;
  test : string
}.

(** ** The environment *)

(** What [client.Get] returns: an error or a response with its status. *)
Inductive HTTPReply : Type :=
| HTTPError (err : string)
| HTTPResponse (status : Z).

(** What [net.DialTimeout] returns: an error or a connection. *)
Inductive DialReply : Type :=
| DialError (err : string)
| DialConn.

(** The environment of a run. [net_get k url t] is the answer to the [k]-th
    network call of the run when that call is [client.Get(url)] with timeout
    [t], paired with the time [time.Since(start)] measured around it;
    [net_dial] likewise for [net.DialTimeout]. *)
Record World : Type := {
  ToLower : string -> string;
  ToUpper : string -> string;
  now_text : string;
  net_get : nat -> string -> Z -> Z * HTTPReply;
  net_dial : nat -> string -> Z -> Z * DialReply
}.

(** ** Observable events *)

(** One constructor per print statement of the program, with the values
    it formats. *)
Inductive Output : Type :=
| MsgNoTarget
| MsgBanner
| MsgTarget (target : string)
| MsgType (upper : string)
| MsgTime (now : string)
| MsgIcmpNotice
| MsgUnsupported (pingType : string)
| MsgReplyHTTP (seq : Z) (target : string) (status : Z) (rtt : Z)
| MsgReplyTCP (seq : Z) (target : string) (rtt : Z)
| MsgFailure (seq : Z) (target : string) (err : option string)
| MsgSummaryTitle
| MsgCounts (sent ok failed : Z) (loss : float64)
| MsgAverage (avg : Z)
| MsgMinMax (min max : Z)
| MsgHealth (color status : string).

Inductive Event : Type :=
| EvPrint (o : Output)
| EvUsage
| EvGet (url : string) (timeout : Z)
| EvDial (addr : string) (timeout : Z)
| EvSleep (d : Z).

(** ** The effect monad *)

Record Sys : Type := {
  calls : nat;
  trace : list Event
}.

(** A computation returns, ends the process with an exit status, or is
    still running when the fuel of the driver loop is spent. *)
Inductive Res (A : Type) : Type :=
| Ret (a : A)
| Exit (code : Z)
| Running.

Arguments Ret {A} a.
Arguments Exit {A} code.
Arguments Running {A}.

Definition IO (A : Type) : Type := Sys -> Res A * Sys.

Definition ret {A} (a : A) : IO A := fun s => (Ret a, s).

Definition bind {A B} (c : IO A) (k : A -> IO B) : IO B :=
  fun s =>
    match c s with
    | (Ret a, s') => k a s'
    | (Exit code, s') => (Exit code, s')
    | (Running, s') => (Running, s')
    end.

Notation "x <- c ;; k" := (bind c (fun x => k))
  (at level 61, c at next level, right associativity).
Notation "c ;;; k" := (bind c (fun _ => k))
  (at level 61, right associativity).

Definition emit (e : Event) : IO unit :=
  fun s => (Ret tt, {| calls := calls s; trace := trace s ++ [e] |}).

Definition print (o : Output) : IO unit := emit (EvPrint o).
Definition Usage : IO unit := emit EvUsage.
Definition Sleep (d : Z) : IO unit := emit (EvSleep d).
Definition os_Exit {A} (code : Z) : IO A := fun s => (Exit code, s).
Definition out_of_fuel {A} : IO A := fun s => (Running, s).

Definition start : Sys := {| calls := 0; trace := [] |}.

Section Program.

Variable w : World.

(** [start := time.Now(); resp, err := client.Get(url);
    time.Since(start)] *)
Definition client_Get (url : string) (timeout : Z) : IO (Z * HTTPReply) :=
  fun s =>
    (Ret (net_get w (calls s) url timeout),
     {| calls := S (calls s); trace := trace s ++ [EvGet url timeout] |}).

(** [start := time.Now(); conn, err := net.DialTimeout("tcp", addr, t);
    time.Since(start)] *)
Definition net_DialTimeout (addr : string) (timeout : Z) : IO (Z * DialReply) :=
  fun s =>
    (Ret (net_dial w (calls s) addr timeout),
     {| calls := S (calls s); trace := trace s ++ [EvDial addr timeout] |}).

(** *** [pingHTTP] *)

Definition http_url (target protocol : string) : string :=
  if negb (HasPrefix target "http://") && negb (HasPrefix target "https://")
  then (protocol ++ "://" ++ target)%string
  else target.

Definition pingHTTP (target protocol : string) (timeout : Z) : IO PingResult :=
  let url := http_url target protocol in
  r <- client_Get url timeout ;;
  let '(elapsed, reply) := r in
  match reply with
  | HTTPError err =>
      ret {| Target := target; Success := false; ResponseTime := elapsed;
             StatusCode := 0; Error := Some err |}
  | HTTPResponse status =>
      ret {| Target := target; Success := status <? 500;
             ResponseTime := elapsed; StatusCode := status; Error := None |}
  end.

(** *** [pingTCP] *)

Definition tcp_addr (target : string) : string :=
  if negb (Contains target ":") then (target ++ ":80")%string else target.

Definition pingTCP (target : string) (timeout : Z) : IO PingResult :=
  let addr := tcp_addr target in
  r <- net_DialTimeout addr timeout ;;
  let '(elapsed, reply) := r in
  match reply with
  | DialError err =>
      ret {| Target := target; Success := false; ResponseTime := elapsed;
             StatusCode := 0; Error := Some err |}
  | DialConn =>
      ret {| Target := target; Success := true; ResponseTime := elapsed;
             StatusCode := 0; Error := None |}
  end.

(** *** [printResult] *)

Definition printResult (result : PingResult) (seq : Z) : IO unit :=
  if Success result then
    if StatusCode result >? 0 then
      print (MsgReplyHTTP seq (Target result) (StatusCode result)
               (Duration.Round (ResponseTime result) Duration.Millisecond))
    else
      print (MsgReplyTCP seq (Target result)
               (Duration.Round (ResponseTime result) Duration.Millisecond))
  else
    print (MsgFailure seq (Target result) (Error result)).

(** *** [printHeader] *)

Definition printHeader (target pingType : string) : IO unit :=
  print MsgBanner ;;;
  print (MsgTarget target) ;;;
  print (MsgType (ToUpper w pingType)) ;;;
  print (MsgTime (now_text w)).

(** *** [printSummary] *)

Definition len (results : list PingResult) : Z := Z.of_nat (List.length results).

(** One pass of the loop that computes the minimum and the maximum:
    the state is [(first, minTime, maxTime)]. *)
Definition minmax_step (acc : bool * Z * Z) (r : PingResult) : bool * Z * Z :=
  let '(first, minTime, maxTime) := acc in
  if Success r then
    if first then (false, ResponseTime r, ResponseTime r)
    else
      (false,
       if ResponseTime r <? minTime then ResponseTime r else minTime,
       if ResponseTime r >? maxTime then ResponseTime r else maxTime)
  else acc.

Definition minmax (results : list PingResult) : bool * Z * Z :=
  fold_left minmax_step results (true, 0, 0).

(** The four verdicts: "excellent", "good", "fair" and "poor". *)
Definition excellent : string := "优秀".
Definition good : string := "良好".
Definition fair : string := "一般".
Definition poor : string := "较差".

(** The [switch] on [successRate]. *)
Definition health (successRate : float64) : string * string :=
  if feqb successRate (of_int 100) then (excellent, ColorGreen)
  else if fgeb successRate (of_int 90) then (good, ColorGreen)
  else if fgeb successRate (of_int 70) then (fair, ColorYellow)
  else (poor, ColorRed).

Definition printSummary (results : list PingResult) (successCount totalTime : Z)
  : IO unit :=
  print MsgSummaryTitle ;;;
  print (MsgCounts (len results) successCount
           (wrap64 (len results - successCount))
           (percent (wrap64 (len results - successCount)) (len results))) ;;;
  (if successCount >? 0 then
     let avgTime := wrap64 (Z.quot totalTime successCount) in
     print (MsgAverage (Duration.Round avgTime Duration.Millisecond)) ;;;
     let '(_, minTime, maxTime) := minmax results in
     print (MsgMinMax (Duration.Round minTime Duration.Millisecond)
                      (Duration.Round maxTime Duration.Millisecond))
   else ret tt) ;;;
  let successRate := percent successCount (len results) in
  let '(status, color) := health successRate in
  print (MsgHealth color status).

(** *** [main] *)

(** The variables of the driver loop. *)
Record Loop : Type := {
  results : list PingResult;
  successCount : Z;
  totalTime : Z;
  iteration : Z
}.

(** The [switch] on the protocol inside the loop. *)
Definition probe (cfg : Config) : IO PingResult :=
  let t := ToLower w (pingType cfg) in
  if String.eqb t "http" || String.eqb t "https" then
    pingHTTP (target cfg) (pingType cfg) (Duration.seconds (timeout cfg))
  else if String.eqb t "tcp" then
    pingTCP (target cfg) (Duration.seconds (timeout cfg))
  else if String.eqb t "icmp" then
    print MsgIcmpNotice ;;;
    pingTCP (target cfg) (Duration.seconds (timeout cfg))
  else
    print (MsgUnsupported (pingType cfg)) ;;;
    os_Exit 1.

(** The updates of the loop variables in one turn: [append], the two
    accumulators and [iteration++]. *)
Definition advance (st : Loop) (result : PingResult) : Loop :=
  {| results := results st ++ [result];
     successCount :=
       if Success result then wrap64 (successCount st + 1)
       else successCount st;
     totalTime :=
       if Success result then wrap64 (totalTime st + ResponseTime result)
       else totalTime st;
     iteration := wrap64 (iteration st + 1) |}.

(** One turn of the [for] loop: [None] stands for [break]. *)
Definition loop_body (cfg : Config) (pingCount : Z) (st : Loop)
  : IO (option Loop) :=
  if (pingCount >? 0) && (iteration st >=? pingCount) then ret None
  else
    result <- probe cfg ;;
    printResult result (wrap64 (iteration st + 1)) ;;;
    let st' := advance st result in
    (if (pingCount <? 0) || (iteration st' <? pingCount)
     then Sleep (Duration.seconds (interval cfg))
     else ret tt) ;;;
    ret (Some st').

(** The [for] loop with at most [fuel] turns; it returns the loop
    variables as they are at the [break]. *)
Fixpoint driver (fuel : nat) (cfg : Config) (pingCount : Z) (st : Loop)
  : IO Loop :=
  match fuel with
  | O => out_of_fuel
  | S fuel' =>
      r <- loop_body cfg pingCount st ;;
      match r with
      | None => ret st
      | Some st' => driver fuel' cfg pingCount st'
      end
  end.

Definition initial : Loop :=
  {| results := []; successCount := 0; totalTime := 0; iteration := 0 |}.

Definition pingCount_of (cfg : Config) : Z :=
  if continuous cfg then -1 else count cfg.

(** The part of [main] from the header to the end of the loop. *)
Definition run_loop (fuel : nat) (cfg : Config) : IO Loop :=
  (if String.eqb (target cfg) "" then
     print MsgNoTarget ;;; Usage ;;; os_Exit 1
   else ret tt) ;;;
  printHeader (target cfg) (pingType cfg) ;;;
  driver fuel cfg (pingCount_of cfg) initial.

(** [main] from the test of the target on, for the flags [cfg] that
    [flag.Parse] has returned. A command line that [flag.Parse] refuses
    never reaches this point: package [flag] ends the process itself. *)
Definition main (fuel : nat) (cfg : Config) : IO unit :=
  st <- run_loop fuel cfg ;;
  printSummary (results st) (successCount st) (totalTime st).

End Program.

(** ** Vocabulary of the statements *)

(** The protocol selectors the [switch] of [main] accepts. *)
Definition supported (w : World) (cfg : Config) : Prop :=
  In (ToLower w (pingType cfg)) ["http"; "https"; "tcp"; "icmp"].

(** The probe of a run as its [k]-th network call: what it returns and the
    events it causes. *)
Definition attempt (w : World) (cfg : Config) (k : nat)
  : Res PingResult * list Event :=
  let '(r, s) := probe w cfg {| calls := k; trace := [] |} in (r, trace s).

(** The line [printResult] prints. *)
Definition result_line (r : PingResult) (seq : Z) : list Event :=
  trace (snd (printResult r seq start)).

(** The events of [printHeader]. *)
Definition header (w : World) (cfg : Config) : list Event :=
  trace (snd (printHeader w (target cfg) (pingType cfg) start)).

(** The events of [printSummary]. *)
Definition summary (rs : list PingResult) (successCount totalTime : Z)
  : list Event :=
  trace (snd (printSummary rs successCount totalTime start)).

(** The sleep that follows attempt [i] (counted from 0) of a run of [N]
    attempts: none after the last one. *)
Definition pause (cfg : Config) (N : Z) (i : nat) : list Event :=
  if Z.of_nat i + 1 <? N then [EvSleep (Duration.seconds (interval cfg))]
  else [].

(** The events of attempt [i] when its probe returned [r]: the probe, the
    line numbered [i + 1], the pause. *)
Definition turn (w : World) (cfg : Config) (N : Z) (ir : nat * PingResult)
  : list Event :=
  let '(i, r) := ir in
  snd (attempt w cfg i) ++ result_line r (Z.of_nat i + 1) ++ pause cfg N i.

Definition is_probe (e : Event) : bool :=
  match e with
  | EvGet _ _ | EvDial _ _ => true
  | _ => false
  end.

Definition is_sleep (e : Event) : bool :=
  match e with
  | EvSleep _ => true
  | _ => false
  end.

(** The sequence number of a per-attempt line. *)
Definition line_number (e : Event) : list Z :=
  match e with
  | EvPrint (MsgReplyHTTP n _ _ _)
  | EvPrint (MsgReplyTCP n _ _)
  | EvPrint (MsgFailure n _ _) => [n]
  | _ => []
  end.

Definition is_summary (e : Event) : bool :=
  match e with
  | EvPrint MsgSummaryTitle => true
  | _ => false
  end.

(** Every event but the sleeps. *)
Definition awake (e : Event) : bool := negb (is_sleep e).

(** The successful and the failed attempts of a result sequence. *)
Definition successes (rs : list PingResult) : list PingResult :=
  filter Success rs.

Definition failures (rs : list PingResult) : list PingResult :=
  filter (fun r => negb (Success r)) rs.

(** The sum of the response times of a sequence. *)
Definition total_time (rs : list PingResult) : Z :=
  fold_right (fun r acc => ResponseTime r + acc) 0 rs.

(** The verdict of the specification: the four bands of the exact rate
    [100 * ok / n], compared without division. *)
Definition verdict (ok n : Z) : string :=
  if 100 * ok =? 100 * n then excellent
  else if 90 * n <=? 100 * ok then good
  else if 70 * n <=? 100 * ok then fair
  else poor.

(** ** Sample runs *)

(** A world given by the replies to the successive network calls and the
    time each takes. *)
Definition world_of (get : nat -> HTTPReply) (dial : nat -> DialReply)
  (elapsed : nat -> Z) : World :=
  {| ToLower := ascii_lower;
     ToUpper := ascii_upper;
     now_text := "2024-01-01 00:00:00";
     net_get := fun k _ _ => (elapsed k, get k);
     net_dial := fun k _ _ => (elapsed k, dial k) |}.

(** A world in which every second network call fails: the even calls are
    answered by status 200 (or a connection), the odd ones by status 503
    (or a refused connection). *)
Definition sample_world : World :=
  world_of
    (fun k => if Nat.even k then HTTPResponse 200 else HTTPResponse 503)
    (fun k => if Nat.even k then DialConn else DialError "connection refused")
    (fun k => Z.of_nat (S k) * 12000000).

(** A world whose server answers every request with status 404. *)
Definition world_404 : World :=
  world_of (fun _ => HTTPResponse 404) (fun _ => DialConn) (fun _ => 7000000).

(** Ten results, nine of them successful. *)
Definition sample_result (ok : bool) : PingResult :=
  {| Target := "example.com"; Success := ok; ResponseTime := 12000000;
     StatusCode := if ok then 200 else 503; Error := None |}.

Definition nine_of_ten : list PingResult :=
  repeat (sample_result true) 9 ++ [sample_result false].

Definition sample_cfg : Config :=
  {| target := "example.com"; pingType := "http"; count := 4; timeout := 5;
     interval := 1; continuous := false; test := "" |}.

Definition with_type (t : string) (cfg : Config) : Config :=
  {| target := target cfg; pingType := t; count := count cfg;
     timeout := timeout cfg; interval := interval cfg;
     continuous := continuous cfg; test := test cfg |}.

Definition with_count (n : Z) (cfg : Config) : Config :=
  {| target := target cfg; pingType := pingType cfg; count := n;
     timeout := timeout cfg; interval := interval cfg;
     continuous := continuous cfg; test := test cfg |}.

Definition with_continuous (b : bool) (cfg : Config) : Config :=
  {| target := target cfg; pingType := pingType cfg; count := count cfg;
     timeout := timeout cfg; interval := interval cfg;
     continuous := b; test := test cfg |}.

(** ** Vocabulary of the further properties *)

(** The notice printed in ICMP mode. *)
Definition is_notice (e : Event) : bool :=
  match e with
  | EvPrint MsgIcmpNotice => true
  | _ => false
  end.

(** The header line that shows the protocol. *)
Definition is_type_line (e : Event) : bool :=
  match e with
  | EvPrint (MsgType _) => true
  | _ => false
  end.

(** Every event but those two. *)
Definition beside_protocol (e : Event) : bool :=
  negb (is_notice e || is_type_line e).

(** An event that agrees with the configuration: a network call goes to the
    address made from the target, with the configured timeout, and a sleep
    lasts the configured interval. *)
Definition configured (cfg : Config) (e : Event) : Prop :=
  match e with
  | EvGet url t =>
      url = http_url (target cfg) (pingType cfg) /\
      t = Duration.seconds (timeout cfg)
  | EvDial addr t =>
      addr = tcp_addr (target cfg) /\ t = Duration.seconds (timeout cfg)
  | EvSleep d => d = Duration.seconds (interval cfg)
  | _ => True
  end.

(** What every result recorded for a configuration satisfies: it names the
    configured target; with an error it is a failure without a status, and
    without one it is a success exactly when the status is below 500. *)
Definition sound_result (cfg : Config) (r : PingResult) : Prop :=
  Target r = target cfg /\
  match Error r with
  | Some _ => Success r = false /\ StatusCode r = 0
  | None => Success r = (StatusCode r <? 500)
  end.

(** The two kinds of line [printResult] prints. *)
Definition is_reply (e : Event) : bool :=
  match e with
  | EvPrint (MsgReplyHTTP _ _ _ _) | EvPrint (MsgReplyTCP _ _ _) => true
  | _ => false
  end.

Definition is_failure_line (e : Event) : bool :=
  match e with
  | EvPrint (MsgFailure _ _ _) => true
  | _ => false
  end.

(** The counts line of the summary. *)
Definition counts_line (e : Event) : list (Z * Z * Z) :=
  match e with
  | EvPrint (MsgCounts sent ok failed _) => [(sent, ok, failed)]
  | _ => []
  end.

(** The trace of a run tallies with the loop variables: one network call
    per result, one reply line per success, one failure line per failure. *)
Definition tallied (st : Loop) (s : Sys) : Prop :=
  List.length (filter is_probe (trace s)) = List.length (results st) /\
  List.length (filter is_reply (trace s))
  = List.length (successes (results st)) /\
  List.length (filter is_failure_line (trace s))
  = List.length (failures (results st)) /\
  flat_map counts_line (trace s) = [].

(** What links a state of a run in ICMP mode to the state of the same run
    in TCP mode. *)
Definition alike (s1 s2 : Sys) : Prop :=
  calls s1 = calls s2 /\
  filter beside_protocol (trace s1) = filter beside_protocol (trace s2) /\
  List.length (filter is_notice (trace s1))
  = List.length (filter is_probe (trace s1)) /\
  filter is_notice (trace s2) = [].

(** A computation that adds only events with the property [P] to a trace
    that has only such events. *)
Definition keeps {A} (P : Event -> Prop) (c : IO A) : Prop :=
  forall s : Sys, Forall P (trace s) -> Forall P (trace (snd (c s))).

(* ================================================================== *)
(** * Part II: properties *)
(* ================================================================== *)

(** ** Machine integers *)

Lemma wrap64_small (z : Z) : in_int64 z -> wrap64 z = z.
Proof.
  unfold in_int64, min_int64, max_int64, wrap64. intros H.
  rewrite Z.mod_small; lia.
Qed.

Lemma wrap64_range (z : Z) : in_int64 (wrap64 z).
Proof.
  unfold in_int64, min_int64, max_int64, wrap64.
  pose proof (Z.mod_pos_bound (z + 2 ^ 63) (2 ^ 64) ltac:(lia)). lia.
Qed.

Lemma wrap64_add_l (a b : Z) : wrap64 (wrap64 a + b) = wrap64 (a + b).
Proof.
  unfold wrap64.
  replace ((a + 2 ^ 63) mod 2 ^ 64 - 2 ^ 63 + b + 2 ^ 63)
    with ((a + 2 ^ 63) mod 2 ^ 64 + b) by lia.
  rewrite Z.add_mod_idemp_l by lia. do 2 f_equal. lia.
Qed.

(** ** Package [strings] *)

Lemma prefix_one_char (c : ascii) (s : string) :
  String.prefix (String c "") s = true <->
  exists s', s = String c s'.
Proof.
  destruct s as [|a s]; cbn.
  - split; [discriminate | intros [s' H]; discriminate].
  - destruct (ascii_dec c a) as [->|Hne].
    + split; [intros _; eexists; reflexivity | intros _].
      destruct s; reflexivity.
    + split; [discriminate | intros [s' H]; congruence].
Qed.

(** [Contains s c] for a one-character [c] says that the character occurs
    in [s]. *)
Lemma Contains_char (c : ascii) (s : string) :
  Contains s (String c "") = true <-> In c (list_ascii_of_string s).
Proof.
  induction s as [|a s IH].
  - cbn. split; [discriminate | intros []].
  - cbn [Contains list_ascii_of_string In].
    destruct (String.prefix (String c "") (String a s)) eqn:Hp.
    + apply prefix_one_char in Hp as [s' Hs]. injection Hs as -> _.
      split; auto.
    + rewrite IH. split; [auto | intros [->|H]; [|exact H]].
      exfalso. assert (String.prefix (String c "") (String c s) = true) as E
        by (apply prefix_one_char; eexists; reflexivity).
      congruence.
Qed.

(** ** Powers of two *)

Lemma pow2_add (a b : Z) : pow2 (a + b) = (pow2 a * pow2 b)%R.
Proof. unfold pow2. apply powerRZ_add. lra. Qed.

Lemma pow2_pos (e : Z) : (0 < pow2 e)%R.
Proof. unfold pow2. apply powerRZ_lt. lra. Qed.

Lemma pow2_0 : pow2 0 = 1%R.
Proof. reflexivity. Qed.

Lemma pow2_1 : pow2 1 = 2%R.
Proof. unfold pow2, powerRZ. simpl. lra. Qed.

Lemma pow2_IZR (e : Z) : 0 <= e -> pow2 e = IZR (2 ^ e).
Proof.
  intros H. unfold pow2. rewrite <- (Z2Nat.id e H).
  rewrite <- pow_powerRZ, pow_IZR. reflexivity.
Qed.

Lemma pow2_opp (e : Z) : pow2 (- e) = (/ pow2 e)%R.
Proof.
  assert (pow2 (- e) * pow2 e = 1)%R as H
    by (rewrite <- pow2_add, Z.add_opp_diag_l; reflexivity).
  pose proof (pow2_pos e). apply Rmult_eq_reg_r with (pow2 e); [|lra].
  rewrite H. field. lra.
Qed.

Lemma pow2_ge_1 (e : Z) : 0 <= e -> (1 <= pow2 e)%R.
Proof.
  intros H. rewrite pow2_IZR by assumption. apply IZR_le.
  pose proof (Z.pow_pos_nonneg 2 e ltac:(lia) H). lia.
Qed.

Lemma pow2_le (a b : Z) : a <= b -> (pow2 a <= pow2 b)%R.
Proof.
  intros H. replace b with (a + (b - a)) by lia. rewrite pow2_add.
  pose proof (pow2_pos a). pose proof (pow2_ge_1 (b - a) ltac:(lia)). nra.
Qed.

Lemma pow2_lt (a b : Z) : a < b -> (pow2 a < pow2 b)%R.
Proof.
  intros H. replace b with (a + 1 + (b - a - 1)) by lia.
  rewrite !pow2_add, pow2_1.
  pose proof (pow2_pos a). pose proof (pow2_ge_1 (b - a - 1) ltac:(lia)). nra.
Qed.

Lemma pow2_lt_inv (a b : Z) : (pow2 a < pow2 b)%R -> a < b.
Proof.
  intros H. destruct (Z.lt_ge_cases a b) as [|Hge]; [assumption|].
  apply pow2_le in Hge. lra.
Qed.

(** [x * 2^e] as the quotient of two integers. *)
Lemma scale_ratio (N D e : Z) :
  0 < D ->
  (IZR (N * 2 ^ Z.max 0 (- e)) / IZR (D * 2 ^ Z.max 0 e)
   = IZR N / IZR D * pow2 (- e))%R.
Proof.
  intros HD. rewrite !mult_IZR, <- !pow2_IZR by lia.
  assert (pow2 (Z.max 0 (- e)) = pow2 (- e) * pow2 (Z.max 0 e))%R as E.
  { rewrite <- pow2_add. f_equal. lia. }
  rewrite E. pose proof (pow2_pos (Z.max 0 e)).
  assert (0 < IZR D)%R by (apply IZR_lt; assumption).
  field. split; lra.
Qed.

(** ** Rounding *)

Lemma rne_div_bounds (N D : Z) :
  0 < D -> - D <= 2 * N - 2 * rne_div N D * D <= D.
Proof.
  intros HD. unfold rne_div.
  pose proof (Z.div_mod N D ltac:(lia)) as E.
  pose proof (Z.mod_pos_bound N D HD) as B.
  destruct (Z.compare_spec (2 * (N mod D)) D);
    [destruct (Z.even (N / D))| |]; nia.
Qed.

Lemma rne_div_near (N D : Z) :
  0 < D ->
  (- / 2 <= IZR (rne_div N D) - IZR N / IZR D <= / 2)%R.
Proof.
  intros HD. pose proof (rne_div_bounds N D HD) as [H1 H2].
  assert (0 < IZR D)%R as HD' by (apply IZR_lt; assumption).
  apply IZR_le in H1, H2.
  rewrite opp_IZR, minus_IZR, !mult_IZR in H1.
  rewrite minus_IZR, !mult_IZR in H2.
  set (m := IZR (rne_div N D)) in *. set (n := IZR N) in *. set (d := IZR D) in *.
  assert (n / d - m = (2 * n - 2 * m * d) / (2 * d))%R as E by (field; lra).
  assert (- / 2 <= n / d - m <= / 2)%R; [|lra].
  rewrite E. split.
  - apply Rmult_le_reg_r with (2 * d)%R; [lra|].
    unfold Rdiv. rewrite Rmult_assoc, Rinv_l by lra. lra.
  - apply Rmult_le_reg_r with (2 * d)%R; [lra|].
    unfold Rdiv. rewrite Rmult_assoc, Rinv_l by lra. lra.
Qed.

(** An integer within one half of an integer is that integer. *)
Lemma near_integer (m k : Z) :
  (- / 2 <= IZR m - IZR k <= / 2)%R -> m = k.
Proof.
  intros H.
  assert (-1 < IZR (m - k) < 1)%R as B by (rewrite minus_IZR; lra).
  destruct B as [B1 B2]. apply lt_IZR in B1, B2. lia.
Qed.

Lemma ilog2_rat_spec (N D : Z) :
  0 < N -> 0 < D ->
  (pow2 (ilog2_rat N D) <= IZR N / IZR D < pow2 (ilog2_rat N D + 1))%R.
Proof.
  intros HN HD. unfold ilog2_rat.
  set (k := Z.log2 N - Z.log2 D).
  pose proof (Z.log2_spec N HN) as [N1 N2].
  pose proof (Z.log2_spec D HD) as [D1 D2].
  pose proof (Z.log2_nonneg N) as Na. pose proof (Z.log2_nonneg D) as Da.
  apply IZR_le in N1, D1. apply IZR_lt in N2, D2.
  rewrite <- !pow2_IZR in N1, N2, D1, D2 by lia.
  replace (Z.succ (Z.log2 N)) with (Z.log2 N + 1) in N2 by lia.
  replace (Z.succ (Z.log2 D)) with (Z.log2 D + 1) in D2 by lia.
  rewrite pow2_add, pow2_1 in N2, D2.
  assert (0 < IZR N)%R as HN' by (apply IZR_lt; assumption).
  assert (0 < IZR D)%R as HD' by (apply IZR_lt; assumption).
  set (x := (IZR N / IZR D)%R).
  assert (IZR N = x * IZR D)%R as Ex by (unfold x; field; lra).
  assert (pow2 (Z.log2 N) = pow2 k * pow2 (Z.log2 D))%R as Ek
    by (rewrite <- pow2_add; f_equal; unfold k; lia).
  pose proof (pow2_pos k) as Pk. pose proof (pow2_pos (Z.log2 D)) as Pd.
  (* x is between 2^(k-1) and 2^(k+1) *)
  assert (pow2 k < 2 * x)%R as Lo by nra.
  assert (x < 2 * pow2 k)%R as Hi by nra.
  destruct (Z.ltb_spec (N * 2 ^ Z.max 0 (- k)) (D * 2 ^ Z.max 0 k)) as [Hlt|Hge].
  - apply IZR_lt in Hlt.
    assert (0 < IZR (D * 2 ^ Z.max 0 k))%R as Pden.
    { apply IZR_lt. pose proof (Z.pow_pos_nonneg 2 (Z.max 0 k)). nia. }
    assert (IZR (N * 2 ^ Z.max 0 (- k)) / IZR (D * 2 ^ Z.max 0 k) < 1)%R as Q.
    { apply Rmult_lt_reg_r with (IZR (D * 2 ^ Z.max 0 k)); [assumption|].
      unfold Rdiv. rewrite Rmult_assoc, Rinv_l by lra. lra. }
    rewrite scale_ratio in Q by assumption. fold x in Q.
    rewrite pow2_opp in Q.
    assert (x < pow2 k)%R as Xk.
    { apply Rmult_lt_reg_r with (/ pow2 k)%R;
        [apply Rinv_0_lt_compat; assumption|].
      rewrite Rinv_r by lra. exact Q. }
    replace (k - 1 + 1) with k by lia. split; [|exact Xk].
    replace k with (k - 1 + 1) in Lo by lia. rewrite pow2_add, pow2_1 in Lo. lra.
  - apply IZR_le in Hge.
    assert (0 < IZR (D * 2 ^ Z.max 0 k))%R as Pden.
    { apply IZR_lt. pose proof (Z.pow_pos_nonneg 2 (Z.max 0 k)). nia. }
    assert (1 <= IZR (N * 2 ^ Z.max 0 (- k)) / IZR (D * 2 ^ Z.max 0 k))%R as Q.
    { apply Rmult_le_reg_r with (IZR (D * 2 ^ Z.max 0 k)); [assumption|].
      unfold Rdiv. rewrite Rmult_assoc, Rinv_l by lra. lra. }
    rewrite scale_ratio in Q by assumption. fold x in Q.
    rewrite pow2_opp in Q.
    assert (pow2 k <= x)%R as Xk.
    { apply Rmult_le_reg_r with (/ pow2 k)%R;
        [apply Rinv_0_lt_compat; assumption|].
      rewrite Rinv_r by lra. exact Q. }
    split; [exact Xk|]. rewrite pow2_add, pow2_1. lra.
Qed.

Lemma IZR_ge_half (m K : Z) : (IZR K - / 2 <= IZR m)%R -> K <= m.
Proof.
  intros H. assert (IZR (K - 1) < IZR m)%R as L by (rewrite minus_IZR; lra).
  apply lt_IZR in L. lia.
Qed.

Lemma IZR_le_half (m K : Z) : (IZR m <= IZR K + / 2)%R -> m <= K.
Proof.
  intros H. assert (IZR m < IZR (K + 1))%R as L by (rewrite plus_IZR; lra).
  apply lt_IZR in L. lia.
Qed.

(** The rounding of a positive rational in the normal range: the result is
    finite, its value is [m0 * 2^(k-52)] for the integer [m0] nearest to
    the scaled rational, where [k] is the binade of the rational. *)
Lemma round_pos_spec (N D : Z) :
  0 < N -> 0 < D ->
  let k := ilog2_rat N D in
  -1022 <= k <= 1022 ->
  exists m e m0 : Z,
    round_pos N D = FFin m e /\
    0 < m /\
    F2R m e = (IZR m0 * pow2 (k - 52))%R /\
    (- / 2 <= IZR m0 - IZR N / IZR D * pow2 (52 - k) <= / 2)%R /\
    2 ^ 52 <= m0 <= 2 ^ 53.
Proof.
  intros HN HD k Hk. unfold round_pos. fold k.
  replace (Z.max (k - 52) (-1074)) with (k - 52) by lia.
  set (e := k - 52).
  set (m0 := rne_div (N * 2 ^ Z.max 0 (- e)) (D * 2 ^ Z.max 0 e)).
  assert (0 < D * 2 ^ Z.max 0 e) as HD'
    by (pose proof (Z.pow_pos_nonneg 2 (Z.max 0 e)); nia).
  pose proof (rne_div_near (N * 2 ^ Z.max 0 (- e)) _ HD') as Hnear.
  fold m0 in Hnear. rewrite scale_ratio in Hnear by assumption.
  replace (- e) with (52 - k) in Hnear by (unfold e; lia).
  pose proof (ilog2_rat_spec N D HN HD) as [Lo Hi]. fold k in Lo, Hi.
  set (x := (IZR N / IZR D)%R) in *.
  pose proof (pow2_pos (52 - k)) as Pp.
  assert (pow2 k * pow2 (52 - k) = IZR (2 ^ 52))%R as E52
    by (rewrite <- pow2_add, <- pow2_IZR by lia; f_equal; lia).
  assert (pow2 (k + 1) * pow2 (52 - k) = IZR (2 ^ 53))%R as E53
    by (rewrite <- pow2_add, <- pow2_IZR by lia; f_equal; lia).
  assert (IZR (2 ^ 52) <= x * pow2 (52 - k) < IZR (2 ^ 53))%R as Hx by nra.
  assert (2 ^ 52 <= m0 <= 2 ^ 53) as Hm0.
  { split; [apply IZR_ge_half | apply IZR_le_half]; lra. }
  destruct (Z.eqb_spec m0 (2 ^ 53)) as [E|NE].
  - exists (2 ^ 52), (e + 1), m0.
    replace (e + 1 >? 971) with false
      by (symmetry; rewrite Z.gtb_ltb; apply Z.ltb_ge; unfold e; lia).
    repeat split; try lia; try lra.
    unfold F2R. rewrite pow2_add, pow2_1, E.
    change (2 ^ 53) with (2 ^ 52 * 2). rewrite mult_IZR. fold e. lra.
  - exists m0, e, m0.
    replace (e >? 971) with false
      by (symmetry; rewrite Z.gtb_ltb; apply Z.ltb_ge; unfold e; lia).
    repeat split; try lia; try lra.
Qed.

(** Comparisons of finite floats compare their values. *)
Lemma fcompare_F2R (m1 e1 m2 e2 : Z) :
  exists c : comparison,
    fcompare (FFin m1 e1) (FFin m2 e2) = Some c /\
    match c with
    | Lt => (F2R m1 e1 < F2R m2 e2)%R
    | Eq => F2R m1 e1 = F2R m2 e2
    | Gt => (F2R m2 e2 < F2R m1 e1)%R
    end.
Proof.
  cbn [fcompare]. set (e := Z.min e1 e2).
  eexists. split; [reflexivity|].
  assert (forall m f, e <= f ->
            IZR (m * 2 ^ (f - e)) = (F2R m f * pow2 (- e))%R) as Hs.
  { intros m f Hf. rewrite mult_IZR, <- pow2_IZR by lia. unfold F2R.
    replace (f - e) with (f + - e) by lia. rewrite pow2_add. lra. }
  pose proof (pow2_pos (- e)) as Pe.
  pose proof (Hs m1 e1 ltac:(lia)) as H1.
  pose proof (Hs m2 e2 ltac:(lia)) as H2.
  destruct (Z.compare_spec (m1 * 2 ^ (e1 - e)) (m2 * 2 ^ (e2 - e))) as [E|L|L].
  - rewrite E in H1. nra.
  - apply IZR_lt in L. nra.
  - apply IZR_lt in L. nra.
Qed.

Lemma fgeb_F2R (m1 e1 m2 e2 : Z) :
  fgeb (FFin m1 e1) (FFin m2 e2) = true <-> (F2R m2 e2 <= F2R m1 e1)%R.
Proof.
  unfold fgeb. destruct (fcompare_F2R m1 e1 m2 e2) as (c & -> & H).
  destruct c; split; intros; try reflexivity; try discriminate; lra.
Qed.

Lemma feqb_F2R (m1 e1 m2 e2 : Z) :
  feqb (FFin m1 e1) (FFin m2 e2) = true <-> F2R m1 e1 = F2R m2 e2.
Proof.
  unfold feqb. destruct (fcompare_F2R m1 e1 m2 e2) as (c & -> & H).
  destruct c; split; intros; try reflexivity; try discriminate; lra.
Qed.

Lemma ilog2_rat_bounds (N D a b : Z) :
  0 < N -> 0 < D ->
  (pow2 a <= IZR N / IZR D < pow2 b)%R ->
  a <= ilog2_rat N D < b.
Proof.
  intros HN HD [Ha Hb]. pose proof (ilog2_rat_spec N D HN HD) as [Lo Hi].
  split.
  - assert (a < ilog2_rat N D + 1); [|lia]. apply pow2_lt_inv. lra.
  - apply pow2_lt_inv. lra.
Qed.

Lemma round_rat_pos (N D : Z) : 0 < N -> round_rat N D = round_pos N D.
Proof. destruct N; intros H; try lia. reflexivity. Qed.

(** Integers below [2^53] convert exactly. *)
Lemma of_int_exact (z : Z) :
  0 < z < 2 ^ 53 ->
  exists m e : Z, of_int z = FFin m e /\ 0 < m /\ F2R m e = IZR z.
Proof.
  intros [Hz1 Hz2]. unfold of_int. rewrite round_rat_pos by assumption.
  assert (pow2 0 <= IZR z / IZR 1 < pow2 53)%R as Hx.
  { rewrite pow2_0, (pow2_IZR 53) by lia. unfold Rdiv. rewrite Rinv_1, Rmult_1_r.
    split; [apply IZR_le; lia | apply IZR_lt; assumption]. }
  pose proof (ilog2_rat_bounds z 1 0 53 Hz1 ltac:(lia) Hx) as Hk.
  destruct (round_pos_spec z 1 Hz1 ltac:(lia) ltac:(lia))
    as (m & e & m0 & Hr & Hm & Hv & Hnear & _).
  set (k := ilog2_rat z 1) in *.
  exists m, e. split; [exact Hr|]. split; [exact Hm|].
  assert (IZR z / IZR 1 * pow2 (52 - k) = IZR (z * 2 ^ (52 - k)))%R as E
    by (rewrite mult_IZR, <- pow2_IZR by lia; field).
  rewrite E in Hnear. apply near_integer in Hnear. rewrite Hv, Hnear.
  rewrite mult_IZR, <- pow2_IZR by lia. rewrite Rmult_assoc, <- pow2_add.
  replace (52 - k + (k - 52)) with 0 by lia. rewrite pow2_0. lra.
Qed.

(** The quotient and the product of positive finite floats are roundings of
    the exact quotient and product. *)
Lemma fdiv_pos (m1 e1 m2 e2 : Z) :
  0 < m1 -> 0 < m2 ->
  exists N D : Z,
    0 < N /\ 0 < D /\
    fdiv (FFin m1 e1) (FFin m2 e2) = round_pos N D /\
    (IZR N / IZR D = F2R m1 e1 / F2R m2 e2)%R.
Proof.
  intros H1 H2. cbn [fdiv].
  replace (m2 =? 0) with false by (symmetry; apply Z.eqb_neq; lia).
  replace (Z.sgn m2) with 1 by lia. replace (Z.abs m2) with m2 by lia.
  rewrite Z.mul_1_r.
  exists (m1 * 2 ^ Z.max 0 (e1 - e2)), (m2 * 2 ^ Z.max 0 (e2 - e1)).
  pose proof (Z.pow_pos_nonneg 2 (Z.max 0 (e1 - e2)) ltac:(lia) ltac:(lia)).
  pose proof (Z.pow_pos_nonneg 2 (Z.max 0 (e2 - e1)) ltac:(lia) ltac:(lia)).
  split; [nia|]. split; [nia|]. split; [apply round_rat_pos; nia|].
  replace (e1 - e2) with (- (e2 - e1)) by lia.
  rewrite scale_ratio by assumption. unfold F2R.
  replace (- (e2 - e1)) with (e1 + - e2) by lia. rewrite pow2_add, pow2_opp.
  pose proof (pow2_pos e2). assert (0 < IZR m2)%R by (apply IZR_lt; assumption).
  field. split; lra.
Qed.

Lemma fmul_pos (m1 e1 m2 e2 : Z) :
  0 < m1 -> 0 < m2 ->
  exists N D : Z,
    0 < N /\ 0 < D /\
    fmul (FFin m1 e1) (FFin m2 e2) = round_pos N D /\
    (IZR N / IZR D = F2R m1 e1 * F2R m2 e2)%R.
Proof.
  intros H1 H2. cbn [fmul].
  exists (m1 * m2 * 2 ^ Z.max 0 (e1 + e2)), (2 ^ Z.max 0 (- (e1 + e2))).
  pose proof (Z.pow_pos_nonneg 2 (Z.max 0 (e1 + e2)) ltac:(lia) ltac:(lia)).
  pose proof (Z.pow_pos_nonneg 2 (Z.max 0 (- (e1 + e2))) ltac:(lia) ltac:(lia)).
  split; [nia|]. split; [lia|]. split; [apply round_rat_pos; nia|].
  replace (2 ^ Z.max 0 (- (e1 + e2))) with (1 * 2 ^ Z.max 0 (- (e1 + e2))) by lia.
  replace (e1 + e2) with (- - (e1 + e2)) at 1 by lia.
  rewrite scale_ratio by lia. unfold F2R.
  replace (- - (e1 + e2)) with (e1 + e2) by lia. rewrite pow2_add, mult_IZR.
  field.
Qed.

Lemma pow2_neg_const (e : Z) : 0 <= e -> pow2 (- e) = (/ IZR (2 ^ e))%R.
Proof. intros H. rewrite pow2_opp, pow2_IZR by assumption. reflexivity. Qed.

Lemma pow2_m54 : pow2 (-54) = (/ 18014398509481984)%R.
Proof. apply (pow2_neg_const 54). lia. Qed.

Lemma pow2_m48 : pow2 (-48) = (/ 281474976710656)%R.
Proof. apply (pow2_neg_const 48). lia. Qed.

Lemma pow2_m47 : pow2 (-47) = (/ 140737488355328)%R.
Proof. apply (pow2_neg_const 47). lia. Qed.

Lemma pow2_m46 : pow2 (-46) = (/ 70368744177664)%R.
Proof. apply (pow2_neg_const 46). lia. Qed.

Lemma pow2_m43 : pow2 (-43) = (/ 8796093022208)%R.
Proof. apply (pow2_neg_const 43). lia. Qed.

Lemma pow2_46 : pow2 46 = 70368744177664%R.
Proof. apply (pow2_IZR 46). lia. Qed.

Lemma pow2_6 : pow2 6 = 64%R.
Proof. apply (pow2_IZR 6). lia. Qed.

Lemma pow2_7 : pow2 7 = 128%R.
Proof. apply (pow2_IZR 7). lia. Qed.

(** A rounding that is not the last step: the quotient [s / n] of two
    integers with [1 <= s <= n < 2^48]. *)
Lemma quotient_spec (s n : Z) :
  1 <= s <= n -> n < 2 ^ 48 ->
  exists m e : Z,
    fdiv (of_int s) (of_int n) = FFin m e /\
    0 < m /\
    (s = n -> F2R m e = 1%R) /\
    (s < n ->
     (- pow2 (-54) <= F2R m e - IZR s / IZR n <= pow2 (-54))%R).
Proof.
  intros Hs Hn.
  destruct (of_int_exact s ltac:(lia)) as (ms & es & -> & Hms & Vs).
  destruct (of_int_exact n ltac:(lia)) as (mn & en & -> & Hmn & Vn).
  destruct (fdiv_pos ms es mn en Hms Hmn) as (N & D & HN & HD & -> & Hx).
  rewrite Vs, Vn in Hx. set (x := (IZR s / IZR n)%R) in *.
  assert (0 < IZR n)%R as Pn by (apply IZR_lt; lia).
  assert (IZR n * x = IZR s)%R as Ex by (unfold x; field; lra).
  assert (1 <= IZR s)%R as Ps by (apply IZR_le; lia).
  assert (IZR s <= IZR n)%R as Psn by (apply IZR_le; lia).
  assert (IZR n < IZR (2 ^ 48))%R as Pn48 by (apply IZR_lt; lia).
  assert (0 < x)%R as Px by nra.
  assert (pow2 (-48) <= IZR N / IZR D < pow2 1)%R as Hb.
  { assert (pow2 (-48) = / IZR (2 ^ 48))%R as E48
      by (apply (pow2_neg_const 48); lia).
    rewrite Hx, pow2_1, E48.
    split; [|nra].
    apply Rmult_le_reg_r with (IZR (2 ^ 48)); [apply IZR_lt; lia|].
    rewrite Rinv_l by (apply not_0_IZR; lia). nra. }
  pose proof (ilog2_rat_bounds N D (-48) 1 HN HD Hb) as Hk.
  destruct (round_pos_spec N D HN HD ltac:(lia))
    as (m & e & m0 & Hr & Hm & Hv & Hnear & Hm0).
  set (k := ilog2_rat N D) in *. rewrite Hx in Hnear.
  exists m, e. split; [exact Hr|]. split; [exact Hm|].
  assert (pow2 (52 - k) * pow2 (k - 52) = 1)%R as PQ
    by (rewrite <- pow2_add; replace (52 - k + (k - 52)) with 0 by lia;
        apply pow2_0).
  pose proof (pow2_pos (52 - k)) as PP. pose proof (pow2_pos (k - 52)) as QQ.
  split.
  - intros ->. assert (x = 1)%R as X1 by (unfold x; field; lra).
    assert (pow2 0 <= IZR N / IZR D < pow2 1)%R as Hb1
      by (rewrite Hx, X1, pow2_0, pow2_1; lra).
    pose proof (ilog2_rat_bounds N D 0 1 HN HD Hb1) as Hk1. fold k in Hk1.
    assert (k = 0) as K0 by lia. rewrite K0 in *.
    rewrite X1, Rmult_1_l, (pow2_IZR (52 - 0)) in Hnear by lia.
    apply near_integer in Hnear. rewrite Hv, Hnear.
    rewrite <- pow2_IZR by lia. exact PQ.
  - intros Hlt.
    assert (x < 1)%R as X1.
    { assert (IZR s + 1 <= IZR n)%R
        by (rewrite <- plus_IZR; apply IZR_le; lia). nra. }
    assert (pow2 (-48) <= IZR N / IZR D < pow2 0)%R as Hb0
      by (rewrite pow2_0; lra).
    pose proof (ilog2_rat_bounds N D (-48) 0 HN HD Hb0) as Hk0. fold k in Hk0.
    assert (pow2 (k - 52) <= pow2 (-53))%R as Q53 by (apply pow2_le; lia).
    assert (pow2 (-53) = 2 * pow2 (-54))%R as E54
      by (replace (-53) with (1 + -54) by lia; rewrite pow2_add, pow2_1; lra).
    rewrite Hv. set (P := pow2 (52 - k)) in *. set (Q := pow2 (k - 52)) in *.
    set (a := (IZR m0 - x * P)%R) in *.
    assert (IZR m0 * Q - x = a * Q)%R as Ea by (unfold a; nra).
    rewrite Ea. nra.
Qed.

(** The value of [float64(s) / float64(n) * 100] for [0 <= s <= n < 2^48]:
    it is within [2^-46] of the exact percentage, it is exactly 100 when
    [s = n], and it is on the same side of an integer threshold between 65
    and 100 as the exact percentage whenever [100 * s] is not within 10 of
    the threshold times [n]. *)
Lemma percent_spec (s n : Z) :
  1 <= n < 2 ^ 48 -> 0 <= s <= n ->
  exists m e : Z,
    percent s n = FFin m e /\
    0 <= m /\
    (s = n -> F2R m e = 100%R) /\
    (- pow2 (-46) < F2R m e - 100 * (IZR s / IZR n) < pow2 (-46))%R /\
    (forall T : Z,
       65 <= T <= 100 ->
       (T * n <= 100 * s -> (IZR T <= F2R m e)%R) /\
       (100 * s + 10 <= T * n -> (F2R m e < IZR T)%R)).
Proof.
  intros Hn Hs. unfold percent.
  assert (0 < IZR n)%R as Pn by (apply IZR_lt; lia).
  destruct (Z.eq_dec s 0) as [->|Hs0].
  - destruct (of_int_exact n ltac:(lia)) as (mn & en & -> & Hmn & _).
    exists 0, 0.
    assert (fmul (fdiv (of_int 0) (FFin mn en)) (of_int 100) = FFin 0 0) as ->.
    { cbn [of_int round_rat fdiv].
      replace (mn =? 0) with false by (symmetry; apply Z.eqb_neq; lia).
      reflexivity. }
    split; [reflexivity|]. split; [lia|]. split; [lia|].
    pose proof (pow2_pos (-46)).
    assert (F2R 0 0 = 0)%R as -> by (unfold F2R; lra).
    split; [unfold Rdiv; lra|].
    intros T HT. split.
    + intros H0. exfalso. nia.
    + intros _. apply IZR_lt. lia.
  - destruct (quotient_spec s n ltac:(lia) ltac:(lia))
      as (mq & eq & -> & Hmq & Vone & Vnear).
    destruct (of_int_exact 100 ltac:(lia)) as (mc & ec & -> & Hmc & Vc).
    destruct (fmul_pos mq eq mc ec Hmq Hmc) as (N & D & HN & HD & -> & Hy).
    rewrite Vc in Hy. set (vq := F2R mq eq) in *.
    set (x := (IZR s / IZR n)%R) in *.
    assert (IZR n * x = IZR s)%R as Ex by (unfold x; field; lra).
    destruct (Z.eq_dec s n) as [Esn|Nsn].
    + (* s = n: every step is exact *)
      specialize (Vone Esn).
      assert (x = 1)%R as X1 by (subst s; unfold x; field; lra).
      rewrite Vone, Rmult_1_l in Hy.
      assert (pow2 6 <= IZR N / IZR D < pow2 7)%R as Hb
        by (rewrite Hy, pow2_6, pow2_7; lra).
      pose proof (ilog2_rat_bounds N D 6 7 HN HD Hb) as Hk.
      destruct (round_pos_spec N D HN HD ltac:(lia))
        as (m & e & m0 & Hr & Hm & Hv & Hnear & _).
      assert (ilog2_rat N D = 6) as K6 by lia. rewrite K6, Hy in *.
      assert (100 * pow2 (52 - 6) = IZR (100 * 2 ^ 46))%R as E
        by (rewrite mult_IZR, <- pow2_IZR by lia; reflexivity).
      rewrite E in Hnear. apply near_integer in Hnear.
      assert (F2R m e = 100)%R as V100.
      { rewrite Hv, Hnear, mult_IZR, <- pow2_IZR by lia.
        rewrite Rmult_assoc, <- pow2_add.
        replace (46 + (6 - 52)) with 0 by lia. rewrite pow2_0. lra. }
      exists m, e. split; [exact Hr|]. split; [lia|].
      split; [intros _; exact V100|].
      rewrite V100, X1. pose proof (pow2_pos (-46)).
      split; [lra|].
      intros T HT. split.
      * intros _. apply IZR_le. lia.
      * intros H0. exfalso. nia.
    + (* s < n *)
      assert (s < n) as Hlt by lia. specialize (Vnear Hlt).
      rewrite pow2_m54 in Vnear.
      assert (1 <= IZR s)%R as Ps by (apply IZR_le; lia).
      assert (IZR s + 1 <= IZR n)%R as Psn
        by (rewrite <- plus_IZR; apply IZR_le; lia).
      assert (IZR n < 281474976710656)%R as Pn48 by (apply IZR_lt; lia).
      assert (0 < x < 1)%R as Px by nra.
      assert (/ 281474976710656 < x)%R as Px48.
      { apply Rmult_lt_reg_r with 281474976710656%R; [lra|].
        rewrite Rinv_l by lra. nra. }
      set (y := (vq * 100)%R) in *.
      assert (pow2 (-43) <= IZR N / IZR D < pow2 7)%R as Hb
        by (rewrite Hy, pow2_m43, pow2_7; unfold y; lra).
      pose proof (ilog2_rat_bounds N D (-43) 7 HN HD Hb) as Hk.
      destruct (round_pos_spec N D HN HD ltac:(lia))
        as (m & e & m0 & Hr & Hm & Hv & Hnear & _).
      set (k := ilog2_rat N D) in *. rewrite Hy in Hnear.
      exists m, e. split; [exact Hr|]. split; [lia|]. split; [intros E; lia|].
      assert (pow2 (52 - k) * pow2 (k - 52) = 1)%R as PQ
        by (rewrite <- pow2_add; replace (52 - k + (k - 52)) with 0 by lia;
            apply pow2_0).
      pose proof (pow2_pos (52 - k)) as PP. pose proof (pow2_pos (k - 52)) as QQ.
      assert (pow2 (k - 52) <= pow2 (-46))%R as Q46 by (apply pow2_le; lia).
      rewrite pow2_m46 in *.
      set (P := pow2 (52 - k)) in *. set (Q := pow2 (k - 52)) in *.
      set (a := (IZR m0 - y * P)%R) in *.
      assert (F2R m e - y = a * Q)%R as Ea.
      { rewrite Hv. unfold a. fold Q.
        transitivity (IZR m0 * Q - y * (P * Q))%R; [rewrite PQ; ring | ring]. }
      assert (- / 140737488355328 <= F2R m e - y <= / 140737488355328)%R
        as Vy by (rewrite Ea; nra).
      split; [unfold y in Vy; lra|].
      intros T HT.
      assert (65 <= IZR T <= 100)%R as PT
        by (split; apply IZR_le; lia).
      split.
      * intros HTn. apply IZR_le in HTn. rewrite !mult_IZR in HTn.
        assert (IZR T <= 100 * x)%R as Tx by nra.
        assert (pow2 6 <= IZR N / IZR D < pow2 7)%R as Hb6
          by (rewrite Hy, pow2_6, pow2_7; unfold y; lra).
        pose proof (ilog2_rat_bounds N D 6 7 HN HD Hb6) as Hk6. fold k in Hk6.
        assert (k = 6) as K6 by lia.
        assert (P = 70368744177664)%R as EP
          by (unfold P; rewrite K6; apply pow2_46).
        assert (Q = / 70368744177664)%R as EQ
          by (unfold Q; rewrite K6; apply pow2_m46).
        assert (IZR (T * 2 ^ 46) <= IZR m0)%R as Hm0.
        { apply IZR_le.
          assert (IZR (T * 2 ^ 46 - 1) < IZR m0)%R as L.
          { rewrite minus_IZR, mult_IZR.
            change (IZR (2 ^ 46)) with 70368744177664%R.
            unfold a in Hnear. rewrite EP in Hnear. unfold y in Hnear. lra. }
          apply lt_IZR in L. lia. }
        rewrite mult_IZR in Hm0. change (IZR (2 ^ 46)) with 70368744177664%R in Hm0.
        rewrite Hv. fold Q. rewrite EQ. lra.
      * intros HTn. apply IZR_le in HTn.
        rewrite plus_IZR, !mult_IZR in HTn.
        assert (100 * x + 10 * / IZR n <= IZR T)%R as Tx.
        { apply Rmult_le_reg_r with (IZR n); [assumption|].
          rewrite Rmult_plus_distr_r, (Rmult_assoc 10), Rinv_l by lra. nra. }
        assert (/ 281474976710656 < / IZR n)%R as Un
          by (apply Rinv_lt_contravar; nra).
        unfold y in Vy. lra.
Qed.

(** ** The probe executors *)

Section Probes.

Variable w : World.

Lemma pingHTTP_returns (target protocol : string) (timeout : Z) (s : Sys) :
  exists r : PingResult,
    pingHTTP w target protocol timeout s
    = (Ret r, {| calls := S (calls s);
                 trace := trace s ++ [EvGet (http_url target protocol) timeout] |}).
Proof.
  unfold pingHTTP, bind, client_Get.
  destruct (net_get w (calls s) (http_url target protocol) timeout)
    as [elapsed [err|status]]; eexists; reflexivity.
Qed.

Lemma pingTCP_returns (target : string) (timeout : Z) (s : Sys) :
  exists r : PingResult,
    pingTCP w target timeout s
    = (Ret r, {| calls := S (calls s);
                 trace := trace s ++ [EvDial (tcp_addr target) timeout] |}).
Proof.
  unfold pingTCP, bind, net_DialTimeout.
  destruct (net_dial w (calls s) (tcp_addr target) timeout)
    as [elapsed [err|]]; eexists; reflexivity.
Qed.

(** C1. When [client.Get] returns a response, [pingHTTP] returns a result
    that carries the status code and whose [Success] field is true exactly
    when the status is below 500; so 404 is a success and 503 a failure. *)
Theorem pingHTTP_success_iff_status_below_500 :
  forall (target protocol : string) (timeout : Z) (s : Sys)
         (elapsed status : Z),
    net_get w (calls s) (http_url target protocol) timeout
      = (elapsed, HTTPResponse status) ->
    exists (r : PingResult) (s' : Sys),
      pingHTTP w target protocol timeout s = (Ret r, s') /\
      StatusCode r = status /\
      (Success r = true <-> status < 500) /\
      (status = 404 -> Success r = true) /\
      (status = 503 -> Success r = false).
Proof.
  intros tgt proto t s elapsed status Hnet.
  unfold pingHTTP, bind, client_Get. rewrite Hnet. cbn.
  eexists; eexists; split; [reflexivity|]. cbn.
  split; [reflexivity|]. split; [apply Z.ltb_lt|].
  split; intros ->; reflexivity.
Qed.

(** C7. [pingTCP] dials the target followed by [":80"] when the target
    has no colon, and the target itself when it has one. *)
Theorem pingTCP_dials_default_port_80 :
  forall (target : string) (timeout : Z) (s : Sys),
  exists (r : PingResult) (addr : string),
    pingTCP w target timeout s
    = (Ret r, {| calls := S (calls s);
                 trace := trace s ++ [EvDial addr timeout] |}) /\
    (~ In ":"%char (list_ascii_of_string target) ->
     addr = (target ++ ":80")%string) /\
    (In ":"%char (list_ascii_of_string target) -> addr = target).
Proof.
  intros tgt t s. destruct (pingTCP_returns tgt t s) as [r Hr].
  exists r, (tcp_addr tgt). split; [exact Hr|].
  unfold tcp_addr. destruct (Contains tgt ":") eqn:Hc; cbn.
  - apply Contains_char in Hc. split; [intros H; contradiction | reflexivity].
  - split; [reflexivity | intros H]. apply Contains_char in H. congruence.
Qed.

(** C8. A result returned by [pingHTTP] or by [pingTCP] whose [Success]
    field is true has no error; a result with an error is a failure. *)
Theorem probe_success_has_no_error :
  forall (target protocol : string) (timeout : Z) (s s' : Sys)
         (r : PingResult),
    pingHTTP w target protocol timeout s = (Ret r, s') \/
    pingTCP w target timeout s = (Ret r, s') ->
    (Success r = true -> Error r = None) /\
    (Error r <> None -> Success r = false).
Proof.
  intros tgt proto t s s' r [H|H].
  - unfold pingHTTP, bind, client_Get in H.
    destruct (net_get w (calls s) (http_url tgt proto) t)
      as [elapsed [err|status]]; cbn in H; injection H as <- _; cbn.
    + split; [discriminate | reflexivity].
    + split; [reflexivity | intros E; contradiction].
  - unfold pingTCP, bind, net_DialTimeout in H.
    destruct (net_dial w (calls s) (tcp_addr tgt) t)
      as [elapsed [err|]]; cbn in H; injection H as <- _; cbn.
    + split; [discriminate | reflexivity].
    + split; [reflexivity | intros E; contradiction].
Qed.

End Probes.

Lemma pingHTTP_success_iff_status_below_500_witness :
  exists (r : PingResult) (s' : Sys),
    pingHTTP world_404 "example.com" "http" 5000000000 start = (Ret r, s') /\
    StatusCode r = 404 /\
    (Success r = true <-> 404 < 500) /\
    (404 = 404 -> Success r = true) /\
    (404 = 503 -> Success r = false).
Proof.
  apply (pingHTTP_success_iff_status_below_500 world_404
           "example.com" "http" 5000000000 start 7000000 404).
  reflexivity.
Defined.

Lemma pingTCP_dials_default_port_80_witness :
  exists (r : PingResult) (addr : string),
    pingTCP sample_world "example.com" 5000000000 start
    = (Ret r, {| calls := 1; trace := [EvDial addr 5000000000] |}) /\
    (~ In ":"%char (list_ascii_of_string "example.com") ->
     addr = "example.com:80") /\
    (In ":"%char (list_ascii_of_string "example.com") -> addr = "example.com").
Proof.
  exact (pingTCP_dials_default_port_80 sample_world "example.com" 5000000000 start).
Defined.

Lemma probe_success_has_no_error_witness :
  (Success {| Target := "example.com"; Success := true;
              ResponseTime := 7000000; StatusCode := 404; Error := None |}
   = true -> @None string = None) /\
  (@None string <> None -> true = false).
Proof.
  apply (probe_success_has_no_error world_404 "example.com" "http" 5000000000
           start {| calls := 1; trace := [EvGet "http://example.com" 5000000000] |}
           {| Target := "example.com"; Success := true; ResponseTime := 7000000;
              StatusCode := 404; Error := None |}).
  left. reflexivity.
Defined.

(** ** The effect monad *)

Lemma bind_Ret {A B} (c : IO A) (k : A -> IO B) (s s' : Sys) (a : A) :
  c s = (Ret a, s') -> bind c k s = k a s'.
Proof. unfold bind. intros ->. reflexivity. Qed.

Lemma bind_inv {A B} (c : IO A) (k : A -> IO B) (s s' : Sys) (b : B) :
  bind c k s = (Ret b, s') ->
  exists a s0, c s = (Ret a, s0) /\ k a s0 = (Ret b, s').
Proof.
  unfold bind. destruct (c s) as [[a| |] s0]; intros H; try discriminate.
  exists a, s0. split; [reflexivity | exact H].
Qed.

(** ** The driver loop *)

Section Driver.

Variable w : World.

Lemma printResult_run (r : PingResult) (seq : Z) (s : Sys) :
  printResult r seq s
  = (Ret tt, {| calls := calls s; trace := trace s ++ result_line r seq |}).
Proof.
  unfold result_line, printResult.
  destruct (Success r); [destruct (StatusCode r >? 0)|]; reflexivity.
Qed.

Lemma result_line_number (r : PingResult) (seq : Z) :
  flat_map line_number (result_line r seq) = [seq] /\
  filter is_probe (result_line r seq) = [] /\
  filter is_sleep (result_line r seq) = [] /\
  filter is_summary (result_line r seq) = [].
Proof.
  unfold result_line, printResult.
  destruct (Success r); [destruct (StatusCode r >? 0)|]; cbn; auto.
Qed.

Lemma printHeader_run (cfg : Config) (s : Sys) :
  printHeader w (target cfg) (pingType cfg) s
  = (Ret tt, {| calls := calls s; trace := trace s ++ header w cfg |}).
Proof.
  unfold header, printHeader, bind, print, emit. cbn.
  rewrite <- !app_assoc. reflexivity.
Qed.

(** With a supported protocol the [switch] makes exactly one network
    call and returns its result. *)
Lemma probe_supported (cfg : Config) (s : Sys) :
  supported w cfg ->
  exists (r : PingResult) (evs : list Event),
    attempt w cfg (calls s) = (Ret r, evs) /\
    probe w cfg s
    = (Ret r, {| calls := S (calls s); trace := trace s ++ evs |}) /\
    List.length (filter is_probe evs) = 1%nat /\
    flat_map line_number evs = [] /\
    filter is_sleep evs = [] /\
    filter is_summary evs = [].
Proof.
  unfold supported, attempt, probe. intros H.
  set (t := ToLower w (pingType cfg)) in *. cbn in H.
  destruct H as [H|[H|[H|[H|[]]]]]; rewrite <- H;
    cbn [String.eqb Ascii.eqb Bool.eqb orb];
    unfold pingHTTP, pingTCP, bind, client_Get, net_DialTimeout, print, emit, ret;
    cbn [calls trace].
  1,2: destruct (net_get w (calls s) _ _) as [el [err|st]].
  5,6: destruct (net_dial w (calls s) _ _) as [el [err|]].
  all: eexists; eexists; split; [reflexivity|];
    split; [cbn; rewrite <- ?app_assoc; reflexivity|]; cbn; auto.
Qed.

(** One turn of the loop that does not break. *)
Lemma loop_body_turn (cfg : Config) (pingCount : Z) (st : Loop) (s : Sys) :
  supported w cfg ->
  (pingCount >? 0) && (iteration st >=? pingCount) = false ->
  exists (r : PingResult) (evs : list Event),
    attempt w cfg (calls s) = (Ret r, evs) /\
    List.length (filter is_probe evs) = 1%nat /\
    flat_map line_number evs = [] /\
    filter is_sleep evs = [] /\
    filter is_summary evs = [] /\
    loop_body w cfg pingCount st s
    = (Ret (Some (advance st r)),
       {| calls := S (calls s);
          trace := trace s ++ evs
                     ++ result_line r (wrap64 (iteration st + 1))
                     ++ (if (pingCount <? 0)
                            || (iteration (advance st r) <? pingCount)
                         then [EvSleep (Duration.seconds (interval cfg))]
                         else []) |}).
Proof.
  intros Hsup Hgo.
  destruct (probe_supported cfg s Hsup) as (r & evs & Hat & Hpr & H1 & H2 & H3 & H4).
  exists r, evs. repeat (split; [assumption|]).
  unfold loop_body. rewrite Hgo.
  rewrite (bind_Ret _ _ _ _ _ Hpr).
  rewrite (bind_Ret _ _ _ _ _ (printResult_run _ _ _)).
  destruct ((pingCount <? 0) || (iteration (advance st r) <? pingCount));
    unfold bind, Sleep, emit, ret; cbn [calls trace];
    rewrite <- ?app_assoc, ?app_nil_r; reflexivity.
Qed.

Lemma loop_body_inv (cfg : Config) (pingCount : Z) (st st' : Loop) (s s' : Sys) :
  loop_body w cfg pingCount st s = (Ret (Some st'), s') ->
  ~ (0 < pingCount <= iteration st) /\
  exists r : PingResult, st' = advance st r.
Proof.
  unfold loop_body.
  destruct ((pingCount >? 0) && (iteration st >=? pingCount)) eqn:E;
    [discriminate|].
  intros H. split.
  - intros [H1 H2]. apply andb_false_iff in E as [E|E]; lia.
  - apply bind_inv in H as (r & s0 & _ & H).
    apply bind_inv in H as ([] & s1 & _ & H).
    apply bind_inv in H as ([] & s2 & _ & H).
    injection H as <- _. exists r. reflexivity.
Qed.

Lemma loop_body_break (cfg : Config) (pingCount : Z) (st : Loop) (s s' : Sys) :
  loop_body w cfg pingCount st s = (Ret None, s') ->
  0 < pingCount <= iteration st /\ s' = s.
Proof.
  unfold loop_body.
  destruct ((pingCount >? 0) && (iteration st >=? pingCount)) eqn:E.
  - intros H. injection H as <-. apply andb_prop in E as [E1 E2].
    split; [lia | reflexivity].
  - intros H. apply bind_inv in H as (r & s0 & _ & H).
    apply bind_inv in H as ([] & s1 & _ & H).
    apply bind_inv in H as ([] & s2 & _ & H).
    discriminate.
Qed.

(** What the loop variables satisfy at the [break]: any property of the
    initial variables that every turn preserves, and the exit test. *)
Lemma driver_invariant (P : Loop -> Prop) (cfg : Config) (pingCount : Z) :
  (forall st r, P st -> ~ (0 < pingCount <= iteration st) -> P (advance st r)) ->
  forall (fuel : nat) (st st' : Loop) (s s' : Sys),
    driver w fuel cfg pingCount st s = (Ret st', s') ->
    P st -> P st' /\ 0 < pingCount <= iteration st'.
Proof.
  intros Hstep. induction fuel as [|fuel IH]; intros st st' s s' H HP.
  - discriminate.
  - cbn [driver] in H. apply bind_inv in H as ([st1|] & s1 & Hb & H).
    + apply loop_body_inv in Hb as [Hgo [r ->]].
      apply (IH _ _ _ _ H). apply Hstep; assumption.
    + injection H as <- <-. apply loop_body_break in Hb as [Hb _].
      split; assumption.
Qed.

Lemma results_advance (rs : list PingResult) (st : Loop) :
  results (fold_left advance rs st) = results st ++ rs.
Proof.
  revert st. induction rs as [|r rs IH]; intros st; cbn.
  - rewrite app_nil_r. reflexivity.
  - rewrite IH. cbn. rewrite <- app_assoc. reflexivity.
Qed.

(** Bounded mode: from turn [i] on, the loop makes the [d] turns that
    remain and breaks. *)
Lemma driver_bounded (cfg : Config) (N : Z) :
  supported w cfg -> 1 <= N <= max_int64 ->
  forall (d i : nat) (st : Loop) (s : Sys) (fuel : nat),
    iteration st = Z.of_nat i -> calls s = i ->
    Z.of_nat (i + d) = N -> (d < fuel)%nat ->
    exists (rs : list PingResult) (s' : Sys),
      driver w fuel cfg N st s = (Ret (fold_left advance rs st), s') /\
      Forall2 (fun j r => fst (attempt w cfg j) = Ret r) (seq i d) rs /\
      calls s' = (i + d)%nat /\
      trace s' = trace s ++ flat_map (turn w cfg N) (combine (seq i d) rs).
Proof.
  intros Hsup HN. induction d as [|d IH]; intros i st s fuel Hi Hc Hd Hf.
  - exists [], s. destruct fuel as [|fuel]; [lia|]. cbn [driver].
    unfold loop_body.
    replace ((N >? 0) && (iteration st >=? N)) with true
      by (symmetry; apply andb_true_intro; split; lia).
    cbn. rewrite app_nil_r. repeat split; [constructor | lia].
  - destruct fuel as [|fuel]; [lia|]. cbn [driver].
    assert ((N >? 0) && (iteration st >=? N) = false) as Hgo
      by (apply andb_false_intro2; lia).
    destruct (loop_body_turn cfg N st s Hsup Hgo)
      as (r & evs & Hat & _ & _ & _ & _ & Hbody).
    rewrite (bind_Ret _ _ _ _ _ Hbody).
    assert (wrap64 (iteration st + 1) = Z.of_nat (S i)) as Hit
      by (rewrite wrap64_small; unfold in_int64, min_int64, max_int64 in *; lia).
    match type of Hbody with _ = (_, ?s1) => set (s1' := s1) in * end.
    destruct (IH (S i) (advance st r) s1' fuel) as (rs & s' & Hdr & Hall & Hcalls & Htr).
    + cbn. exact Hit.
    + cbn. rewrite Hc. reflexivity.
    + lia.
    + lia.
    + exists (r :: rs), s'. cbn [fold_left]. split; [exact Hdr|].
      split; [|split].
      * cbn [seq]. constructor; [|exact Hall]. rewrite <- Hc, Hat. reflexivity.
      * lia.
      * rewrite Htr. subst s1'. cbn [trace seq combine flat_map turn].
        rewrite <- Hc. rewrite Hat. cbn [snd iteration advance].
        rewrite Hit. unfold pause.
        replace (N <? 0) with false by (symmetry; apply Z.ltb_ge; lia).
        cbn [orb]. rewrite Hc.
        replace (Z.of_nat (S i)) with (Z.of_nat i + 1) by lia.
        rewrite <- !app_assoc. reflexivity.
Qed.

(** With a count that is not positive the loop never breaks: whatever the
    fuel, it is still running once the fuel is spent, and it has made one
    network call per turn. *)
Lemma driver_unbounded (cfg : Config) (pingCount : Z) :
  supported w cfg -> pingCount <= 0 ->
  forall (fuel : nat) (st : Loop) (s : Sys),
  exists s' : Sys,
    driver w fuel cfg pingCount st s = (Running, s') /\
    calls s' = (calls s + fuel)%nat /\
    List.length (filter is_probe (trace s'))
    = (List.length (filter is_probe (trace s)) + fuel)%nat /\
    filter is_summary (trace s') = filter is_summary (trace s).
Proof.
  intros Hsup Hpc. induction fuel as [|fuel IH]; intros st s.
  - exists s. cbn. repeat split; lia.
  - cbn [driver].
    assert ((pingCount >? 0) && (iteration st >=? pingCount) = false) as Hgo
      by (apply andb_false_intro1; lia).
    destruct (loop_body_turn cfg pingCount st s Hsup Hgo)
      as (r & evs & Hat & Hp & _ & _ & Hs & Hbody).
    rewrite (bind_Ret _ _ _ _ _ Hbody).
    match type of Hbody with _ = (_, ?s1) => set (s1' := s1) in * end.
    destruct (IH (advance st r) s1') as (s' & Hdr & Hcalls & Hprobes & Hsum).
    exists s'. split; [exact Hdr|]. subst s1'. cbn [calls trace] in *.
    destruct (result_line_number r (wrap64 (iteration st + 1)))
      as (_ & Hl1 & _ & Hl2).
    split; [lia|]. split.
    + rewrite Hprobes. rewrite !filter_app, !length_app, Hp, Hl1.
      destruct ((pingCount <? 0) || _); cbn; lia.
    + rewrite Hsum. rewrite !filter_app, Hs, Hl2.
      destruct ((pingCount <? 0) || _); cbn; rewrite ?app_nil_r; reflexivity.
Qed.

End Driver.

(** ** Runs of [main] *)

Section Main.

Variable w : World.

Lemma header_events (cfg : Config) :
  header w cfg
  = [EvPrint MsgBanner; EvPrint (MsgTarget (target cfg));
     EvPrint (MsgType (ToUpper w (pingType cfg)));
     EvPrint (MsgTime (now_text w))].
Proof. reflexivity. Qed.

(** With a target, [main] prints the header and enters the loop. *)
Lemma run_loop_with_target (fuel : nat) (cfg : Config) :
  target cfg <> "" ->
  run_loop w fuel cfg start
  = driver w fuel cfg (pingCount_of cfg) initial
      {| calls := 0; trace := header w cfg |}.
Proof.
  intros Ht. unfold run_loop. apply String.eqb_neq in Ht. rewrite Ht.
  unfold bind at 1. unfold ret at 1.
  rewrite (bind_Ret _ _ _ _ _ (printHeader_run w cfg start)).
  reflexivity.
Qed.

Lemma printSummary_run (rs : list PingResult) (sc total : Z) (s : Sys) :
  printSummary rs sc total s
  = (Ret tt, {| calls := calls s; trace := trace s ++ summary rs sc total |}).
Proof.
  unfold summary, printSummary.
  destruct (health (percent sc (len rs))) as [status color].
  destruct (sc >? 0); [destruct (minmax rs) as [[first mn] mx]|];
    unfold bind, print, emit, ret; cbn [calls trace app];
    rewrite <- ?app_assoc; reflexivity.
Qed.

Lemma main_after_loop (fuel : nat) (cfg : Config) (st : Loop) (s1 : Sys) :
  run_loop w fuel cfg start = (Ret st, s1) ->
  main w fuel cfg start
  = (Ret tt, {| calls := calls s1;
                trace := trace s1
                  ++ summary (results st) (successCount st) (totalTime st) |}).
Proof.
  intros H. unfold main. rewrite (bind_Ret _ _ _ _ _ H).
  apply printSummary_run.
Qed.

Lemma main_while_running (fuel : nat) (cfg : Config) (s1 : Sys) :
  run_loop w fuel cfg start = (Running, s1) ->
  main w fuel cfg start = (Running, s1).
Proof. intros H. unfold main, bind. rewrite H. reflexivity. Qed.

(** The loop depends on the configuration and on the count only through
    its body. *)
Lemma driver_ext (cfg1 cfg2 : Config) (pc1 pc2 : Z) :
  (forall st s, loop_body w cfg1 pc1 st s = loop_body w cfg2 pc2 st s) ->
  forall (fuel : nat) (st : Loop) (s : Sys),
    driver w fuel cfg1 pc1 st s = driver w fuel cfg2 pc2 st s.
Proof.
  intros Hbody. induction fuel as [|fuel IH]; intros st s; [reflexivity|].
  cbn [driver]. unfold bind. rewrite Hbody.
  destruct (loop_body w cfg2 pc2 st s) as [[[st'|]| |] s']; auto.
Qed.

Lemma loop_body_negative (cfg : Config) (pc1 pc2 : Z) (st : Loop) (s : Sys) :
  pc1 < 0 -> pc2 < 0 ->
  loop_body w cfg pc1 st s = loop_body w cfg pc2 st s.
Proof.
  intros H1 H2. unfold loop_body.
  replace (pc1 >? 0) with false by (symmetry; rewrite Z.gtb_ltb; apply Z.ltb_ge; lia).
  replace (pc2 >? 0) with false by (symmetry; rewrite Z.gtb_ltb; apply Z.ltb_ge; lia).
  replace (pc1 <? 0) with true by (symmetry; apply Z.ltb_lt; lia).
  replace (pc2 <? 0) with true by (symmetry; apply Z.ltb_lt; lia).
  reflexivity.
Qed.

(** Two loops whose counts are not positive make the same turns; they
    differ at most in the sleeps. *)
Lemma driver_nonpositive_agree (cfg : Config) (pc1 pc2 : Z) :
  supported w cfg -> pc1 <= 0 -> pc2 <= 0 ->
  forall (fuel : nat) (st : Loop) (s1 s2 : Sys),
    calls s1 = calls s2 ->
    filter awake (trace s1) = filter awake (trace s2) ->
    exists s1' s2' : Sys,
      driver w fuel cfg pc1 st s1 = (Running, s1') /\
      driver w fuel cfg pc2 st s2 = (Running, s2') /\
      calls s1' = calls s2' /\
      filter awake (trace s1') = filter awake (trace s2').
Proof.
  intros Hsup H1 H2. induction fuel as [|fuel IH]; intros st s1 s2 Hc Ht.
  - exists s1, s2. cbn. auto.
  - cbn [driver].
    assert ((pc1 >? 0) && (iteration st >=? pc1) = false) as Hgo1
      by (apply andb_false_intro1; lia).
    assert ((pc2 >? 0) && (iteration st >=? pc2) = false) as Hgo2
      by (apply andb_false_intro1; lia).
    destruct (loop_body_turn w cfg pc1 st s1 Hsup Hgo1)
      as (r1 & evs1 & Hat1 & _ & _ & _ & _ & Hb1).
    destruct (loop_body_turn w cfg pc2 st s2 Hsup Hgo2)
      as (r2 & evs2 & Hat2 & _ & _ & _ & _ & Hb2).
    rewrite Hc, Hat2 in Hat1. injection Hat1 as <- <-.
    rewrite (bind_Ret _ _ _ _ _ Hb1), (bind_Ret _ _ _ _ _ Hb2).
    apply IH; cbn [calls trace].
    + rewrite Hc. reflexivity.
    + rewrite !filter_app, Ht.
      destruct ((pc1 <? 0) || _), ((pc2 <? 0) || _); reflexivity.
Qed.

(** C2. With a target and a protocol selector that lower-cases to none of
    http, https, tcp and icmp, the process exits with status 1 in the
    first turn of the loop, whatever the count and the mode: the result
    sequence is still empty, no network call was made and no attempt line
    was printed. *)
Theorem unsupported_protocol_exits_without_probing :
  forall (cfg : Config) (fuel : nat),
    target cfg <> "" ->
    ~ In (ToLower w (pingType cfg)) ["http"; "https"; "tcp"; "icmp"] ->
    let s0 := {| calls := 0; trace := header w cfg |} in
    let s' := {| calls := 0;
                 trace := header w cfg
                            ++ [EvPrint (MsgUnsupported (pingType cfg))] |} in
    main w (S fuel) cfg start = (Exit 1, s') /\
    loop_body w cfg (pingCount_of cfg) initial s0 = (Exit 1, s') /\
    results initial = [] /\
    filter is_probe (trace s') = [] /\
    flat_map line_number (trace s') = [].
Proof.
  intros cfg fuel Ht Hns s0 s'.
  assert (loop_body w cfg (pingCount_of cfg) initial s0 = (Exit 1, s')) as Hbody.
  { unfold loop_body. cbn [iteration initial].
    replace ((pingCount_of cfg >? 0) && (0 >=? pingCount_of cfg)) with false
      by (symmetry; destruct (pingCount_of cfg); reflexivity).
    unfold probe. cbn in Hns.
    destruct (String.eqb_spec (ToLower w (pingType cfg)) "http") as [E|_];
      [symmetry in E; tauto|].
    destruct (String.eqb_spec (ToLower w (pingType cfg)) "https") as [E|_];
      [symmetry in E; tauto|].
    destruct (String.eqb_spec (ToLower w (pingType cfg)) "tcp") as [E|_];
      [symmetry in E; tauto|].
    destruct (String.eqb_spec (ToLower w (pingType cfg)) "icmp") as [E|_];
      [symmetry in E; tauto|].
    reflexivity. }
  split; [|split; [exact Hbody|]].
  - unfold main. unfold bind at 1. rewrite (run_loop_with_target _ _ Ht).
    cbn [driver]. unfold bind. fold s0. rewrite Hbody. reflexivity.
  - subst s'. cbn [trace]. rewrite header_events. cbn. auto.
Qed.

(** The events of one turn: one network call, one numbered line, and the
    pause. *)
Lemma turn_events (cfg : Config) (N : Z) (j : nat) (r : PingResult) :
  supported w cfg ->
  List.length (filter is_probe (turn w cfg N (j, r))) = 1%nat /\
  flat_map line_number (turn w cfg N (j, r)) = [Z.of_nat j + 1] /\
  filter is_sleep (turn w cfg N (j, r)) = pause cfg N j /\
  filter is_summary (turn w cfg N (j, r)) = [].
Proof.
  intros Hsup.
  destruct (probe_supported w cfg {| calls := j; trace := [] |} Hsup)
    as (r' & evs & Hat & _ & Hp & Hl & Hs & Hy).
  cbn [calls] in Hat.
  destruct (result_line_number r (Z.of_nat j + 1)) as (Ll & Lp & Ls & Ly).
  unfold turn. rewrite Hat. cbn [snd].
  rewrite !filter_app, !flat_map_app, !length_app, Hp, Hl, Hs, Hy, Ll, Lp, Ls, Ly.
  unfold pause. destruct (Z.of_nat j + 1 <? N); cbn; auto.
Qed.

Lemma turns_events (cfg : Config) (N : Z) :
  supported w cfg ->
  forall (d i : nat) (rs : list PingResult),
    List.length rs = d ->
    let evs := flat_map (turn w cfg N) (combine (seq i d) rs) in
    List.length (filter is_probe evs) = d /\
    flat_map line_number evs = map (fun j => Z.of_nat j + 1) (seq i d) /\
    filter is_sleep evs = flat_map (pause cfg N) (seq i d) /\
    filter is_summary evs = [].
Proof.
  intros Hsup. induction d as [|d IH]; intros i rs Hlen.
  - cbn. auto.
  - destruct rs as [|r rs]; [discriminate|]. injection Hlen as Hlen.
    destruct (IH (S i) rs Hlen) as (Hp & Hl & Hs & Hy).
    destruct (turn_events cfg N i r Hsup) as (Tp & Tl & Ts & Ty).
    cbn [seq combine flat_map map].
    rewrite !filter_app, !flat_map_app, !length_app,
      Hp, Hl, Hs, Hy, Tp, Tl, Ts, Ty.
    auto.
Qed.

(** In a run of [N] attempts every attempt but the last is followed by
    one sleep. *)
Lemma pauses (cfg : Config) (N : Z) (d i : nat) :
  Z.of_nat (i + d) = N ->
  flat_map (pause cfg N) (seq i d)
  = repeat (EvSleep (Duration.seconds (interval cfg))) (d - 1).
Proof.
  revert i. induction d as [|d IH]; intros i H; [reflexivity|].
  cbn [seq flat_map]. rewrite IH by lia. unfold pause.
  destruct d as [|d].
  - replace (Z.of_nat i + 1 <? N) with false
      by (symmetry; apply Z.ltb_ge; lia).
    reflexivity.
  - replace (Z.of_nat i + 1 <? N) with true
      by (symmetry; apply Z.ltb_lt; lia).
    cbn. rewrite Nat.sub_0_r. reflexivity.
Qed.

(** The run of a valid configuration in bounded mode. *)
Lemma run_loop_bounded (cfg : Config) :
  target cfg <> "" -> supported w cfg -> continuous cfg = false ->
  1 <= count cfg <= max_int64 ->
  exists (st : Loop) (s' : Sys),
    (forall fuel : nat,
       (Z.to_nat (count cfg) < fuel)%nat ->
       run_loop w fuel cfg start = (Ret st, s')) /\
    Forall2 (fun j r => fst (attempt w cfg j) = Ret r)
      (seq 0 (Z.to_nat (count cfg))) (results st) /\
    calls s' = Z.to_nat (count cfg) /\
    trace s' = header w cfg
                 ++ flat_map (turn w cfg (count cfg))
                      (combine (seq 0 (Z.to_nat (count cfg))) (results st)).
Proof.
  intros Ht Hsup Hc HN.
  set (n := Z.to_nat (count cfg)).
  set (s0 := {| calls := 0; trace := header w cfg |}).
  destruct (driver_bounded w cfg (count cfg) Hsup HN n 0%nat initial s0 (S n))
    as (rs & s' & Hdr & Hall & Hcalls & Htr);
    [reflexivity | reflexivity | lia | lia |].
  exists (fold_left advance rs initial), s'.
  rewrite results_advance. cbn [results initial app].
  repeat split; try assumption.
  intros fuel Hf. rewrite (run_loop_with_target _ _ Ht).
  unfold pingCount_of. rewrite Hc. fold s0.
  destruct (driver_bounded w cfg (count cfg) Hsup HN n 0%nat initial s0 fuel)
    as (rs2 & s2 & Hdr2 & Hall2 & Hcalls2 & Htr2);
    [reflexivity | reflexivity | lia | lia |].
  assert (rs2 = rs) as ->.
  { clear - Hall Hall2. revert rs2 Hall2.
    induction Hall as [|j r js rs E _ IH]; intros rs2 H2; inversion H2; subst.
    - reflexivity.
    - f_equal; [congruence | apply IH; assumption]. }
  rewrite Hdr2. f_equal. destruct s' as [c t], s2 as [c2 t2].
  cbn in *. congruence.
Qed.

(** C4, for a run with a target and a supported protocol. In bounded mode
    with count [N >= 1] the run leaves the loop after exactly [N] turns. It
    has made [N] network calls and recorded their [N] results in order;
    the attempt lines are numbered [1], ..., [N]; every attempt but the
    last is followed by one sleep of the configured interval, and nothing
    follows the last line. *)
Theorem bounded_mode_makes_count_attempts :
  forall cfg : Config,
    target cfg <> "" -> supported w cfg -> continuous cfg = false ->
    1 <= count cfg <= max_int64 ->
    let n := Z.to_nat (count cfg) in
    exists (st : Loop) (s' : Sys),
      (forall fuel : nat,
         (n < fuel)%nat -> run_loop w fuel cfg start = (Ret st, s')) /\
      List.length (results st) = n /\
      Forall2 (fun j r => fst (attempt w cfg j) = Ret r)
        (seq 0 n) (results st) /\
      trace s' = header w cfg
                   ++ flat_map (turn w cfg (count cfg))
                        (combine (seq 0 n) (results st)) /\
      List.length (filter is_probe (trace s')) = n /\
      flat_map line_number (trace s')
      = map (fun j => Z.of_nat j + 1) (seq 0 n) /\
      filter is_sleep (trace s')
      = repeat (EvSleep (Duration.seconds (interval cfg))) (n - 1).
Proof.
  intros cfg Ht Hsup Hc HN n.
  destruct (run_loop_bounded cfg Ht Hsup Hc HN)
    as (st & s' & Hrun & Hall & Hcalls & Htr).
  fold n in Hrun, Hall, Hcalls, Htr.
  assert (List.length (results st) = n) as Hlen.
  { apply Forall2_length in Hall. rewrite length_seq in Hall. auto. }
  destruct (turns_events cfg (count cfg) Hsup n 0%nat (results st) Hlen)
    as (Hp & Hl & Hs & _).
  exists st, s'. repeat (split; [assumption|]).
  rewrite Htr, !filter_app, !flat_map_app, !length_app, Hp, Hl, Hs.
  rewrite header_events. cbn [filter is_probe is_sleep flat_map line_number
                                List.length app Nat.add].
  repeat split. apply pauses. lia.
Qed.

Lemma summary_title (rs : list PingResult) (sc total : Z) :
  filter is_summary (summary rs sc total) = [EvPrint MsgSummaryTitle].
Proof.
  unfold summary, printSummary.
  destruct (health (percent sc (len rs))) as [status color].
  destruct (sc >? 0); [destruct (minmax rs) as [[first mn] mx]|];
    reflexivity.
Qed.

(** The loop counts its turns in [iteration]. *)
Lemma iteration_counts_results (fuel : nat) (cfg : Config) (st : Loop) (s1 : Sys) :
  run_loop w fuel cfg start = (Ret st, s1) ->
  iteration st = wrap64 (len (results st)) /\
  0 < pingCount_of cfg <= iteration st.
Proof.
  unfold run_loop. intros H.
  apply bind_inv in H as ([] & s2 & _ & H).
  apply bind_inv in H as ([] & s3 & _ & H).
  apply (driver_invariant w
           (fun st => iteration st = wrap64 (len (results st)))
           cfg (pingCount_of cfg)) in H; [exact H | | reflexivity].
  intros st0 r E _. unfold advance, len. cbn [iteration results].
  rewrite E, length_app. cbn [List.length].
  rewrite wrap64_add_l. f_equal. unfold len. lia.
Qed.

(** C9, for a run with a target and a supported protocol. [main] leaves
    the loop and prints the summary exactly when the run is not continuous
    and the count is at least 1. Otherwise (continuous, or a count that is
    zero or negative) the loop is still running after any number of turns,
    one probe per turn, and no summary is printed; with a count that is
    zero or negative it makes the probes and prints the lines of unbounded
    mode (with a negative count it also sleeps like it). Whenever the loop
    is left, the result sequence is not empty. *)
Theorem loop_terminates_iff_bounded :
  forall cfg : Config,
    target cfg <> "" -> supported w cfg -> count cfg <= max_int64 ->
    ((exists (fuel : nat) (s' : Sys),
         main w fuel cfg start = (Ret tt, s') /\
         filter is_summary (trace s') = [EvPrint MsgSummaryTitle])
     <-> continuous cfg = false /\ 1 <= count cfg) /\
    (continuous cfg = true \/ count cfg <= 0 ->
     forall fuel : nat,
     exists s' : Sys,
       main w fuel cfg start = (Running, s') /\
       calls s' = fuel /\
       List.length (filter is_probe (trace s')) = fuel /\
       filter is_summary (trace s') = []) /\
    (continuous cfg = false -> count cfg <= 0 ->
     forall fuel : nat,
     exists s1 s2 : Sys,
       main w fuel cfg start = (Running, s1) /\
       main w fuel (with_continuous true cfg) start = (Running, s2) /\
       calls s1 = calls s2 /\
       filter awake (trace s1) = filter awake (trace s2) /\
       (count cfg < 0 -> s1 = s2)) /\
    (forall (fuel : nat) (st : Loop) (s1 : Sys),
       run_loop w fuel cfg start = (Ret st, s1) -> results st <> []).
Proof.
  intros cfg Ht Hsup Hmax.
  assert (continuous cfg = true \/ count cfg <= 0 ->
          forall fuel : nat,
          exists s' : Sys,
            main w fuel cfg start = (Running, s') /\
            calls s' = fuel /\
            List.length (filter is_probe (trace s')) = fuel /\
            filter is_summary (trace s') = []) as Hforever.
  { intros Hmode fuel.
    assert (pingCount_of cfg <= 0) as Hpc
      by (unfold pingCount_of; destruct Hmode as [->|H];
          [lia | destruct (continuous cfg); lia]).
    destruct (driver_unbounded w cfg (pingCount_of cfg) Hsup Hpc fuel initial
                {| calls := 0; trace := header w cfg |})
      as (s' & Hdr & Hcalls & Hprobes & Hsum).
    exists s'. rewrite <- (run_loop_with_target fuel cfg Ht) in Hdr.
    split; [apply main_while_running, Hdr|].
    cbn [calls trace] in *. rewrite header_events in Hprobes, Hsum.
    auto. }
  split; [|split; [exact Hforever|split]].
  - split.
    + intros (fuel & s' & Hmain & _).
      destruct (continuous cfg) eqn:Hc.
      * destruct (Hforever (or_introl eq_refl) fuel) as (s2 & E & _).
        congruence.
      * split; [reflexivity|].
        destruct (Z.le_gt_cases 1 (count cfg)) as [H|H]; [exact H|].
        assert (count cfg <= 0) as H0 by lia.
        destruct (Hforever (or_intror H0) fuel) as (s2 & E & _).
        congruence.
    + intros [Hc HN].
      destruct (run_loop_bounded cfg Ht Hsup Hc (conj HN Hmax))
        as (st & s1 & Hrun & Hall & Hcalls & Htr).
      set (n := Z.to_nat (count cfg)) in *.
      exists (S n). eexists. split.
      * apply main_after_loop, Hrun. lia.
      * cbn [trace]. rewrite filter_app, summary_title, Htr, filter_app.
        assert (List.length (results st) = n) as Hlen
          by (apply Forall2_length in Hall; rewrite length_seq in Hall; auto).
        destruct (turns_events cfg (count cfg) Hsup n 0%nat (results st) Hlen)
          as (_ & _ & _ & Hy).
        rewrite Hy, header_events. reflexivity.
  - intros Hc Hcount fuel.
    set (s0 := {| calls := 0; trace := header w cfg |}).
    assert (-1 <= 0) as Hm by lia.
    destruct (driver_nonpositive_agree cfg (count cfg) (-1) Hsup Hcount
                Hm fuel initial s0 s0 eq_refl eq_refl)
      as (s1 & s2 & H1 & H2 & Hcalls & Htrace).
    exists s1, s2.
    assert (run_loop w fuel cfg start = (Running, s1)) as R1.
    { rewrite (run_loop_with_target fuel cfg Ht). unfold pingCount_of.
      rewrite Hc. exact H1. }
    assert (run_loop w fuel (with_continuous true cfg) start = (Running, s2))
      as R2.
    { rewrite (run_loop_with_target fuel (with_continuous true cfg) Ht).
      unfold pingCount_of. cbn [continuous with_continuous].
      rewrite (driver_ext (with_continuous true cfg) cfg (-1) (-1))
        by reflexivity.
      exact H2. }
    split; [apply main_while_running, R1|].
    split; [apply main_while_running, R2|].
    split; [exact Hcalls|]. split; [exact Htrace|].
    intros Hneg.
    rewrite (driver_ext cfg cfg (count cfg) (-1)) in H1
      by (intros; apply loop_body_negative; lia).
    fold s0 in H2. congruence.
  - intros fuel st s1 Hrun Hnil.
    apply iteration_counts_results in Hrun as [Hit Hpc].
    rewrite Hnil in Hit. cbn in Hit. lia.
Qed.

End Main.

(** ** The summary *)

Lemma successes_app (rs : list PingResult) (r : PingResult) :
  successes (rs ++ [r]) = successes rs ++ (if Success r then [r] else []).
Proof. unfold successes. rewrite filter_app. reflexivity. Qed.

Lemma total_time_app (rs : list PingResult) (r : PingResult) :
  total_time (rs ++ [r]) = total_time rs + ResponseTime r.
Proof.
  unfold total_time. induction rs as [|a rs IH]; cbn; [lia|]. rewrite IH. lia.
Qed.

Lemma successes_length (rs : list PingResult) :
  (List.length (successes rs) <= List.length rs)%nat.
Proof. apply filter_length_le. Qed.

(** Successes and failures partition the attempts. *)
Lemma successes_failures (rs : list PingResult) :
  (List.length (successes rs) + List.length (failures rs))%nat
  = List.length rs.
Proof.
  unfold successes, failures.
  induction rs as [|r rs IH]; cbn; [reflexivity|].
  destruct (Success r); cbn; lia.
Qed.

(** The lines of the summary, one by one. *)
Lemma summary_lines (rs : list PingResult) (sc total : Z) :
  summary rs sc total
  = [EvPrint MsgSummaryTitle;
     EvPrint (MsgCounts (len rs) sc (wrap64 (len rs - sc))
                (percent (wrap64 (len rs - sc)) (len rs)))]
    ++ (if sc >? 0 then
          [EvPrint (MsgAverage
                      (Duration.Round (wrap64 (Z.quot total sc))
                         Duration.Millisecond));
           EvPrint (MsgMinMax
                      (Duration.Round (snd (fst (minmax rs))) Duration.Millisecond)
                      (Duration.Round (snd (minmax rs)) Duration.Millisecond))]
        else [])
    ++ [EvPrint (MsgHealth (snd (health (percent sc (len rs))))
                           (fst (health (percent sc (len rs)))))].
Proof.
  unfold summary, printSummary.
  destruct (health (percent sc (len rs))) as [status color].
  destruct (sc >? 0); [destruct (minmax rs) as [[first mn] mx]|]; reflexivity.
Qed.

(** The loop that computes the minimum and the maximum. *)
Lemma minmax_started (rs : list PingResult) (a b : Z) :
  a <= b ->
  exists a' b' : Z,
    fold_left minmax_step rs (false, a, b) = (false, a', b') /\
    a' <= a /\ b <= b' /\
    (a' = a \/ In a' (map ResponseTime (successes rs))) /\
    (b' = b \/ In b' (map ResponseTime (successes rs))) /\
    (forall r, In r (successes rs) -> a' <= ResponseTime r <= b').
Proof.
  revert a b. induction rs as [|r rs IH]; intros a b Hab.
  - exists a, b. cbn. repeat split; auto; try lia; try contradiction.
  - cbn [fold_left minmax_step successes filter]. fold (successes rs).
    destruct (Success r) eqn:Hs.
    + set (a1 := if ResponseTime r <? a then ResponseTime r else a).
      set (b1 := if ResponseTime r >? b then ResponseTime r else b).
      assert (a1 <= a /\ a1 <= ResponseTime r /\ (a1 = a \/ a1 = ResponseTime r))
        as (A1 & A2 & A3)
        by (unfold a1; destruct (Z.ltb_spec (ResponseTime r) a); lia).
      assert (b <= b1 /\ ResponseTime r <= b1 /\ (b1 = b \/ b1 = ResponseTime r))
        as (B1 & B2 & B3)
        by (unfold b1; rewrite Z.gtb_ltb; destruct (Z.ltb_spec b (ResponseTime r)); lia).
      destruct (IH a1 b1 ltac:(lia)) as (a' & b' & E & Ha & Hb & Ia & Ib & Hall).
      exists a', b'. split; [exact E|]. cbn [map In].
      split; [lia|]. split; [lia|]. split; [|split].
      * destruct Ia as [->|Ia]; [|auto]. destruct A3 as [->| ->]; auto.
      * destruct Ib as [->|Ib]; [|auto]. destruct B3 as [->| ->]; auto.
      * intros r0 [<-|Hin]; [lia | apply Hall, Hin].
    + apply IH, Hab.
Qed.

Lemma minmax_spec (rs : list PingResult) :
  successes rs <> [] ->
  exists mn mx : Z,
    minmax rs = (false, mn, mx) /\
    In mn (map ResponseTime (successes rs)) /\
    In mx (map ResponseTime (successes rs)) /\
    (forall r, In r (successes rs) -> mn <= ResponseTime r <= mx).
Proof.
  unfold minmax. induction rs as [|r rs IH]; intros Hne; [contradiction|].
  cbn [fold_left minmax_step successes filter] in *. fold (successes rs) in *.
  destruct (Success r) eqn:Hs.
  - destruct (minmax_started rs (ResponseTime r) (ResponseTime r) ltac:(lia))
      as (a' & b' & E & Ha & Hb & Ia & Ib & Hall).
    exists a', b'. split; [exact E|]. cbn [map In].
    split; [destruct Ia; auto|]. split; [destruct Ib; auto|].
    intros r0 [<-|Hin]; [lia | apply Hall, Hin].
  - apply IH, Hne.
Qed.

(** A run that leaves the loop was in bounded mode with a count of at least
    1; it made that many attempts, and the two accumulators hold the number
    of successes and the (wrapped) sum of their response times. *)
Lemma completed_run (w : World) (fuel : nat) (cfg : Config) (st : Loop) (s1 : Sys) :
  count cfg <= max_int64 ->
  run_loop w fuel cfg start = (Ret st, s1) ->
  continuous cfg = false /\
  1 <= count cfg /\
  len (results st) = count cfg /\
  successCount st = len (successes (results st)) /\
  totalTime st = wrap64 (total_time (successes (results st))).
Proof.
  intros Hmax H. unfold run_loop in H.
  apply bind_inv in H as ([] & s2 & _ & H).
  apply bind_inv in H as ([] & s3 & _ & H).
  set (pc := pingCount_of cfg) in *.
  apply (driver_invariant w
           (fun st =>
              0 < pc ->
              pc <= max_int64 /\
              iteration st = len (results st) /\
              len (results st) <= pc /\
              successCount st = len (successes (results st)) /\
              totalTime st = wrap64 (total_time (successes (results st))))
           cfg pc) in H.
  - destruct H as [HP Hexit].
    assert (0 < pc) as Hpc by lia.
    destruct (HP Hpc) as (_ & Hit & Hle & Hsc & Htot).
    unfold pc, pingCount_of in *.
    destruct (continuous cfg); [lia|].
    repeat split; try assumption; lia.
  - intros st0 r HP Hgo Hpc.
    destruct (HP Hpc) as (Hm & Hit & Hle & Hsc & Htot).
    pose proof (successes_length (results st0)) as Hsl.
    unfold advance. cbn [iteration results successCount totalTime].
    unfold len in *. rewrite successes_app, !length_app, !Nat2Z.inj_add.
    cbn [List.length]. change (Z.of_nat 1) with 1.
    assert (in_int64 (Z.of_nat (List.length (results st0)) + 1)) as R1
      by (unfold in_int64, min_int64, max_int64 in *; lia).
    split; [exact Hm|]. split; [rewrite Hit; apply wrap64_small, R1|].
    split; [lia|].
    destruct (Success r).
    + cbn [List.length]. change (Z.of_nat 1) with 1. split.
      * rewrite Hsc, wrap64_small;
          [lia | unfold in_int64, min_int64, max_int64 in *; lia].
      * rewrite Htot, wrap64_add_l, total_time_app. reflexivity.
    + cbn [List.length]. change (Z.of_nat 0) with 0.
      rewrite app_nil_r, Z.add_0_r. split; assumption.
  - intros Hpc. split.
    + unfold pc, pingCount_of in *. unfold max_int64 in *.
      destruct (continuous cfg); lia.
    + repeat split. cbn. lia.
Qed.

(** ** Rounding durations *)

(** On a non-negative duration [Duration.Round] adds half a unit and
    truncates. *)
Lemma Round_nonneg (d m : Z) :
  0 < m -> 0 <= d -> d + m <= max_int64 ->
  Duration.Round d m = (2 * d + m) / (2 * m) * m.
Proof.
  intros Hm Hd Hmax. unfold Duration.Round, Duration.lessThanHalf, u64.
  unfold max_int64 in *.
  replace (m <=? 0) with false by (symmetry; apply Z.leb_gt; lia).
  replace (d <? 0) with false by (symmetry; apply Z.ltb_ge; lia).
  rewrite Z.rem_mod_nonneg by lia.
  pose proof (Z.mod_pos_bound d m Hm) as Hr.
  pose proof (Z.div_mod d m ltac:(lia)) as Hdm.
  set (q := d / m) in *. set (r := d mod m) in *.
  assert (0 <= q) as Hq by (apply Z.div_pos; lia).
  rewrite (Z.mod_small r), (Z.mod_small m), (Z.mod_small (r + r)) by lia.
  destruct (Z.ltb_spec (r + r) m) as [Hlt|Hge].
  - rewrite wrap64_small by (unfold in_int64, min_int64, max_int64; nia).
    assert ((2 * d + m) / (2 * m) = q) as ->; [|lia].
    symmetry. apply Z.div_unique with (2 * r + m); nia.
  - rewrite (wrap64_small (d + m))
      by (unfold in_int64, min_int64, max_int64; lia).
    rewrite wrap64_small by (unfold in_int64, min_int64, max_int64; nia).
    replace (d + m - r >? d) with true
      by (symmetry; rewrite Z.gtb_ltb; apply Z.ltb_lt; lia).
    assert ((2 * d + m) / (2 * m) = q + 1) as ->; [|lia].
    symmetry. apply Z.div_unique with (2 * r - m); nia.
Qed.

(** Rounding the truncated mean of durations to an even unit gives the
    multiple of the unit nearest to the exact mean (a half rounds up). *)
Lemma Round_mean (total c h : Z) :
  0 < h -> 0 < c -> 0 <= total -> total + 2 * h <= max_int64 ->
  let p := Duration.Round (Z.quot total c) (2 * h) in
  p mod (2 * h) = 0 /\ - (2 * h * c) < 2 * (c * p) - 2 * total <= 2 * h * c.
Proof.
  intros Hh Hc Ht Hmax p. subst p.
  rewrite Z.quot_div_nonneg by lia.
  pose proof (Z.div_mod total c ltac:(lia)) as Hdm.
  pose proof (Z.mod_pos_bound total c Hc) as Hr.
  set (avg := total / c) in *. set (r := total mod c) in *.
  assert (0 <= avg) as Ha by (apply Z.div_pos; lia).
  assert (avg <= total) as Hat by nia.
  rewrite Round_nonneg by lia.
  pose proof (Z.div_mod (2 * avg + 2 * h) (2 * (2 * h)) ltac:(lia)) as Hk.
  pose proof (Z.mod_pos_bound (2 * avg + 2 * h) (2 * (2 * h)) ltac:(lia)) as Hkr.
  set (k := (2 * avg + 2 * h) / (2 * (2 * h))) in *.
  set (rho := (2 * avg + 2 * h) mod (2 * (2 * h))) in *.
  split; [apply Z.mod_mul; lia|].
  set (u := h * k) in *.
  assert (2 * (2 * h) * k = 4 * u) as Eu by (unfold u; ring).
  assert (rho <= 4 * h - 2) as Hrho by lia.
  assert (2 * (c * (k * (2 * h))) = c * (2 * avg + 2 * h - rho)) as E
    by (rewrite Hk; ring).
  rewrite E. nia.
Qed.

(** ** The health verdict *)

Lemma health_verdict (sc n : Z) :
  1 <= n < 2 ^ 48 -> 0 <= sc <= n ->
  fst (health (percent sc n)) = verdict sc n.
Proof.
  intros Hn Hs.
  destruct (percent_spec sc n Hn Hs) as (m & e & -> & _ & V100 & _ & HT).
  destruct (of_int_exact 100 ltac:(lia)) as (m1 & e1 & E1 & _ & V1).
  destruct (of_int_exact 90 ltac:(lia)) as (m2 & e2 & E2 & _ & V2).
  destruct (of_int_exact 70 ltac:(lia)) as (m3 & e3 & E3 & _ & V3).
  destruct (HT 100 ltac:(lia)) as [_ L100].
  destruct (HT 90 ltac:(lia)) as [G90 L90].
  destruct (HT 70 ltac:(lia)) as [G70 L70].
  unfold health, verdict. rewrite E1, E2, E3.
  destruct (Z.eqb_spec (100 * sc) (100 * n)) as [Heq|Hne].
  - assert (feqb (FFin m e) (FFin m1 e1) = true) as ->
      by (apply feqb_F2R; rewrite V1; apply V100; lia).
    reflexivity.
  - assert (feqb (FFin m e) (FFin m1 e1) = false) as ->.
    { apply not_true_is_false. intros H. apply feqb_F2R in H.
      rewrite V1 in H. specialize (L100 ltac:(lia)). lra. }
    destruct (Z.leb_spec (90 * n) (100 * sc)) as [H90|H90].
    + assert (fgeb (FFin m e) (FFin m2 e2) = true) as ->
        by (apply fgeb_F2R; rewrite V2; apply G90; lia).
      reflexivity.
    + assert (fgeb (FFin m e) (FFin m2 e2) = false) as ->.
      { apply not_true_is_false. intros H. apply fgeb_F2R in H.
        rewrite V2 in H. specialize (L90 ltac:(lia)). lra. }
      destruct (Z.leb_spec (70 * n) (100 * sc)) as [H70|H70].
      * assert (fgeb (FFin m e) (FFin m3 e3) = true) as ->
          by (apply fgeb_F2R; rewrite V3; apply G70; lia).
        reflexivity.
      * assert (fgeb (FFin m e) (FFin m3 e3) = false) as ->.
        { apply not_true_is_false. intros H. apply fgeb_F2R in H.
          rewrite V3 in H. specialize (L70 ltac:(lia)). lra. }
        reflexivity.
Qed.

(** C3. The verdict printed at the end of the summary of a non-empty result
    sequence is the band of the exact success rate [100 * sc / n]:
    "excellent" at 100, "good" from 90 (included) to 100, "fair" from 70
    (included) to 90, "poor" below 70. The sequence has fewer than [2^48]
    results, as any Go slice has, and the success count is between 0 and
    their number. *)
Theorem health_verdict_follows_rate_bands :
  forall (rs : list PingResult) (sc total : Z),
    rs <> [] -> len rs < 2 ^ 48 -> 0 <= sc <= len rs ->
    let n := len rs in
    exists (before : list Event) (color status : string),
      summary rs sc total = before ++ [EvPrint (MsgHealth color status)] /\
      status = verdict sc n /\
      (status = excellent <-> 100 * sc = 100 * n) /\
      (status = good <-> 90 * n <= 100 * sc < 100 * n) /\
      (status = fair <-> 70 * n <= 100 * sc < 90 * n) /\
      (status = poor <-> 100 * sc < 70 * n).
Proof.
  intros rs sc total Hne Hlen Hsc n.
  assert (1 <= n) as Hn1
    by (unfold n, len; destruct rs; [contradiction | cbn [List.length]; lia]).
  eexists. exists (snd (health (percent sc n))), (fst (health (percent sc n))).
  split.
  - rewrite summary_lines. fold n. rewrite app_assoc. reflexivity.
  - rewrite (health_verdict sc n) by (fold n in Hsc; lia).
    split; [reflexivity|]. unfold verdict.
    destruct (Z.eqb_spec (100 * sc) (100 * n));
      [|destruct (Z.leb_spec (90 * n) (100 * sc));
        [|destruct (Z.leb_spec (70 * n) (100 * sc))]];
      repeat split; intros; try discriminate; try reflexivity; lia.
Qed.

(** ** The counts and the loss percentage *)

Lemma fmt_tenths_near (m e : Z) :
  exists t : Z,
    fmt_tenths (FFin m e) = Some t /\
    (0 <= m -> 0 <= t) /\
    (- / 2 <= IZR t - 10 * F2R m e <= / 2)%R.
Proof.
  cbn [fmt_tenths]. eexists. split; [reflexivity|].
  set (q := rne_div (Z.abs m * 10 * 2 ^ Z.max 0 e) (2 ^ Z.max 0 (- e))).
  assert (0 < 2 ^ Z.max 0 (- e)) as HD by (apply Z.pow_pos_nonneg; lia).
  pose proof (rne_div_near (Z.abs m * 10 * 2 ^ Z.max 0 e) _ HD) as Hq. fold q in Hq.
  assert (IZR (Z.abs m * 10 * 2 ^ Z.max 0 e) / IZR (2 ^ Z.max 0 (- e))
          = IZR (Z.abs m) * 10 * pow2 e)%R as E.
  { pose proof (scale_ratio (Z.abs m * 10) 1 (- e) ltac:(lia)) as R.
    rewrite Z.opp_involutive, Z.mul_1_l in R. rewrite R, mult_IZR. field. }
  rewrite E in Hq.
  assert (0 <= q) as Hq0.
  { pose proof (rne_div_bounds (Z.abs m * 10 * 2 ^ Z.max 0 e) _ HD) as B.
    fold q in B. pose proof (Z.pow_pos_nonneg 2 (Z.max 0 e)). nia. }
  split; [intros; nia|].
  unfold F2R. destruct (Z.sgn_spec m) as [[Hm ->]|[[Hm ->]|[Hm ->]]].
  - rewrite Z.abs_eq in Hq by lia. rewrite Z.mul_1_l. lra.
  - subst m. change (Z.abs 0) with 0 in Hq. rewrite Z.mul_0_l. lra.
  - rewrite Z.abs_neq, opp_IZR in Hq by lia.
    replace (-1 * q) with (- q) by lia. rewrite opp_IZR. lra.
Qed.

Lemma total_time_nonneg (rs : list PingResult) :
  (forall r, In r rs -> 0 <= ResponseTime r) -> 0 <= total_time rs.
Proof.
  unfold total_time. induction rs as [|r rs IH]; intros H; cbn; [lia|].
  pose proof (H r (or_introl eq_refl)).
  pose proof (IH (fun r0 Hr => H r0 (or_intror Hr))). lia.
Qed.

(** C5. At the end of a completed run the summary reports the number [N]
    of attempts, the number of successful results and the number of failed
    ones, which add up to [N], and the loss percentage
    [float64(failed) / float64(N) * 100]. Printed with [%.1f] the loss is a
    decimal with one fractional digit, [t] tenths, that is within 0.05 (and
    a relative excess below [2^-41]) of the exact percentage
    [100 * failed / N]; below [2^41] attempts it is a decimal nearest to the
    exact percentage. *)
Theorem summary_counts_and_loss :
  forall (w : World) (fuel : nat) (cfg : Config) (st : Loop) (s1 : Sys),
    count cfg < 2 ^ 48 ->
    run_loop w fuel cfg start = (Ret st, s1) ->
    let rs := results st in
    let N := len rs in
    let ok := len (successes rs) in
    let failed := len (failures rs) in
    1 <= N /\ N = count cfg /\ successCount st = ok /\ ok + failed = N /\
    (exists rest : list Event,
       summary rs (successCount st) (totalTime st)
       = EvPrint MsgSummaryTitle
           :: EvPrint (MsgCounts N ok failed (percent failed N)) :: rest) /\
    (exists t : Z,
       fmt_tenths (percent failed N) = Some t /\
       0 <= t /\
       2 ^ 41 * Z.abs (2 * (t * N) - 2000 * failed) <= (2 ^ 41 + 1) * N /\
       (N < 2 ^ 41 -> Z.abs (2 * (t * N) - 2000 * failed) <= N) /\
       fmt_f1 (percent failed N)
       = (decimal (t / 10) ++ "." ++ digit (t mod 10))%string).
Proof.
  intros w fuel cfg st s1 Hcount Hrun rs N ok failed.
  assert (count cfg <= max_int64) as Hmax by (unfold max_int64; lia).
  destruct (completed_run w fuel cfg st s1 Hmax Hrun)
    as (_ & Hc1 & Hlen & Hsc & _).
  fold rs in Hlen, Hsc. fold N in Hlen. fold ok in Hsc.
  assert (ok + failed = N) as Hsum
    by (unfold ok, failed, N, len; rewrite <- (successes_failures rs); lia).
  assert (0 <= ok /\ 0 <= failed) as [Hok Hfailed]
    by (unfold ok, failed, len; lia).
  split; [lia|]. split; [exact Hlen|]. split; [exact Hsc|]. split; [exact Hsum|].
  assert (wrap64 (N - ok) = failed) as Hw
    by (rewrite wrap64_small;
        [lia | unfold in_int64, min_int64, max_int64 in *; lia]).
  split.
  - eexists. rewrite summary_lines. fold rs N. rewrite Hsc, Hw. reflexivity.
  - destruct (percent_spec failed N ltac:(lia) ltac:(lia))
      as (m & e & Hp & Hm & _ & Hacc & _).
    destruct (fmt_tenths_near m e) as (t & Ht & Ht0 & Hnear).
    exists t. rewrite Hp. split; [exact Ht|]. split; [auto|].
    assert (2 ^ 41 * Z.abs (2 * (t * N) - 2000 * failed) <= (2 ^ 41 + 1) * N)
      as Hmain.
    { rewrite pow2_m46 in Hacc.
      assert (0 < IZR N)%R as PN by (apply IZR_lt; lia).
      set (X := (IZR failed / IZR N)%R) in *.
      assert (IZR N * X = IZR failed)%R as EX by (unfold X; field; lra).
      set (v := F2R m e) in *.
      assert (IZR (2 * (t * N) - 2000 * failed)
              = 2 * IZR N * (IZR t - 1000 * X))%R as EA
        by (rewrite minus_IZR, !mult_IZR; nra).
      set (d := (IZR t - 1000 * X)%R) in *.
      assert (- (/ 2 + 10 * / 70368744177664) <= d
              <= / 2 + 10 * / 70368744177664)%R as Hd by (unfold d; lra).
      destruct (Z.abs_spec (2 * (t * N) - 2000 * failed)) as [[_ ->]|[_ ->]];
        apply le_IZR; rewrite !mult_IZR, ?opp_IZR, EA, plus_IZR;
        change (IZR (2 ^ 41)) with 2199023255552%R; nra. }
    split; [exact Hmain|]. split; [intros H41; lia|].
    unfold fmt_f1. rewrite Ht.
    replace (m <? 0) with false by (symmetry; apply Z.ltb_ge; lia).
    rewrite Z.abs_eq by auto. reflexivity.
Qed.

(** C6. At the end of a completed run the summary has the average line and
    the minimum/maximum line exactly when some attempt succeeded. The
    average printed is the total response time of the successful attempts
    divided by their number, and the extremes are the least and the greatest
    response time among the successful attempts, all rounded to the
    millisecond. When the response times are non-negative and their sum fits
    a duration, the division truncates the exact mean to the nanosecond and
    the average printed is the millisecond nearest to the exact mean. *)
Theorem summary_latency_statistics :
  forall (w : World) (fuel : nat) (cfg : Config) (st : Loop) (s1 : Sys),
    count cfg <= max_int64 ->
    run_loop w fuel cfg start = (Ret st, s1) ->
    let rs := results st in
    let ok := successes rs in
    let lines := summary rs (successCount st) (totalTime st) in
    let ms := Duration.Millisecond in
    ((exists a, In (EvPrint (MsgAverage a)) lines) <-> ok <> []) /\
    ((exists a b, In (EvPrint (MsgMinMax a b)) lines) <-> ok <> []) /\
    (ok <> [] ->
     exists mn mx : Z,
       In (EvPrint (MsgAverage
                      (Duration.Round
                         (wrap64 (Z.quot (wrap64 (total_time ok)) (len ok)))
                         ms))) lines /\
       In (EvPrint (MsgMinMax (Duration.Round mn ms) (Duration.Round mx ms)))
          lines /\
       In mn (map ResponseTime ok) /\
       In mx (map ResponseTime ok) /\
       (forall r, In r ok -> mn <= ResponseTime r <= mx)) /\
    (ok <> [] ->
     (forall r, In r ok -> 0 <= ResponseTime r) ->
     total_time ok + ms <= max_int64 ->
     exists avg p : Z,
       avg = Z.quot (total_time ok) (len ok) /\
       len ok * avg <= total_time ok < len ok * (avg + 1) /\
       p = Duration.Round avg ms /\
       In (EvPrint (MsgAverage p)) lines /\
       p mod ms = 0 /\
       - (ms * len ok) < 2 * (len ok * p) - 2 * total_time ok <= ms * len ok).
Proof.
  intros w fuel cfg st s1 Hmax Hrun rs ok lines ms.
  destruct (completed_run w fuel cfg st s1 Hmax Hrun)
    as (_ & _ & _ & Hsc & Htot).
  fold rs in Hsc, Htot. fold ok in Hsc, Htot.
  assert (lines
          = [EvPrint MsgSummaryTitle;
             EvPrint (MsgCounts (len rs) (len ok) (wrap64 (len rs - len ok))
                        (percent (wrap64 (len rs - len ok)) (len rs)))]
            ++ (if len ok >? 0 then
                  [EvPrint (MsgAverage
                              (Duration.Round
                                 (wrap64 (Z.quot (wrap64 (total_time ok)) (len ok)))
                                 ms));
                   EvPrint (MsgMinMax
                              (Duration.Round (snd (fst (minmax rs))) ms)
                              (Duration.Round (snd (minmax rs)) ms))]
                else [])
            ++ [EvPrint (MsgHealth (snd (health (percent (len ok) (len rs))))
                                   (fst (health (percent (len ok) (len rs)))))])
    as Hlines
    by (unfold lines; rewrite summary_lines, Hsc, Htot; reflexivity).
  assert (ok <> [] <-> (len ok >? 0) = true) as Hpos.
  { unfold len. destruct ok; cbn [List.length]; split; intros H;
      try reflexivity; try discriminate; try contradiction. }
  assert (ok <> [] ->
          In (EvPrint (MsgAverage
                         (Duration.Round
                            (wrap64 (Z.quot (wrap64 (total_time ok)) (len ok)))
                            ms))) lines) as Havg.
  { intros Hne. apply Hpos in Hne. rewrite Hlines, Hne. cbn. auto. }
  split; [|split; [|split]].
  - split.
    + intros [a Ha]. apply Hpos. rewrite Hlines in Ha.
      destruct (len ok >? 0); [reflexivity|].
      cbn in Ha. destruct Ha as [H|[H|[H|[]]]]; discriminate.
    + intros Hne. eexists. apply Havg, Hne.
  - split.
    + intros (a & b & Ha). apply Hpos. rewrite Hlines in Ha.
      destruct (len ok >? 0); [reflexivity|].
      cbn in Ha. destruct Ha as [H|[H|[H|[]]]]; discriminate.
    + intros Hne. apply Hpos in Hne. rewrite Hlines, Hne.
      eexists. eexists. cbn. right. right. right. left. reflexivity.
  - intros Hne. destruct (minmax_spec rs Hne) as (mn & mx & Emm & Imn & Imx & Hall).
    exists mn, mx. split; [apply Havg, Hne|].
    split; [|auto].
    apply Hpos in Hne. rewrite Hlines, Hne, Emm. cbn. auto.
  - intros Hne Hnn Hfit.
    pose proof (total_time_nonneg ok Hnn) as Htn.
    assert (0 < len ok) as Hc
      by (apply Hpos in Hne; rewrite Z.gtb_ltb in Hne; apply Z.ltb_lt in Hne; lia).
    unfold ms, Duration.Millisecond in Hfit.
    exists (Z.quot (total_time ok) (len ok)).
    exists (Duration.Round (Z.quot (total_time ok) (len ok)) ms).
    split; [reflexivity|].
    assert (len ok * Z.quot (total_time ok) (len ok) <= total_time ok
            < len ok * (Z.quot (total_time ok) (len ok) + 1)) as Hbr.
    { rewrite Z.quot_div_nonneg by lia.
      pose proof (Z.div_mod (total_time ok) (len ok) ltac:(lia)).
      pose proof (Z.mod_pos_bound (total_time ok) (len ok) Hc). nia. }
    split; [exact Hbr|]. split; [reflexivity|]. split.
    + specialize (Havg Hne).
      rewrite (wrap64_small (total_time ok)) in Havg
        by (unfold in_int64, min_int64, max_int64 in *; lia).
      rewrite wrap64_small in Havg; [exact Havg|].
      assert (0 <= Z.quot (total_time ok) (len ok))
        by (apply Z.quot_pos; lia).
      unfold in_int64, min_int64, max_int64 in *. nia.
    + pose proof (Round_mean (total_time ok) (len ok) 500000
                    ltac:(lia) Hc Htn ltac:(lia)) as [R1 R2].
      change (2 * 500000) with ms in R1, R2.
      split; [exact R1|]. unfold ms, Duration.Millisecond in *. lia.
Qed.

(** ** The float model on samples *)

(** On every ratio [s / n] with [n <= 100] the model computes the float
    that the Standard Library's specification of binary64 computes. *)
Example percent_agrees_with_binary64 :
  forallb (fun '(s, n) => spec_eqb (to_spec (percent s n)) (spec_percent s n))
          (ratios 100) = true.
Proof. vm_compute. reflexivity. Qed.

Example verdict_at_100_percent : health (percent 10 10) = (excellent, ColorGreen).
Proof. vm_compute. reflexivity. Qed.

Example verdict_at_90_percent : health (percent 9 10) = (good, ColorGreen).
Proof. vm_compute. reflexivity. Qed.

Example verdict_below_90_percent : health (percent 899 1000) = (fair, ColorYellow).
Proof. vm_compute. reflexivity. Qed.

Example verdict_at_70_percent : health (percent 7 10) = (fair, ColorYellow).
Proof. vm_compute. reflexivity. Qed.

Example verdict_below_70_percent : health (percent 699 1000) = (poor, ColorRed).
Proof. vm_compute. reflexivity. Qed.

Example loss_one_third : fmt_f1 (percent 1 3) = "33.3".
Proof. vm_compute. reflexivity. Qed.

Example loss_none : fmt_f1 (percent 0 4) = "0.0".
Proof. vm_compute. reflexivity. Qed.

Example round_half_millisecond :
  Duration.Round 1500000 Duration.Millisecond = 2000000.
Proof. reflexivity. Qed.

(** ** Sample runs of [main] *)

Lemma unsupported_protocol_exits_without_probing_witness :
  main sample_world 5 (with_type "ftp" sample_cfg) start
  = (Exit 1,
     {| calls := 0;
        trace := [EvPrint MsgBanner; EvPrint (MsgTarget "example.com");
                  EvPrint (MsgType "FTP");
                  EvPrint (MsgTime "2024-01-01 00:00:00");
                  EvPrint (MsgUnsupported "ftp")] |}).
Proof.
  refine (proj1 (unsupported_protocol_exits_without_probing sample_world
                   (with_type "ftp" sample_cfg) 4 _ _)).
  - discriminate.
  - cbn. intros [H|[H|[H|[H|[]]]]]; discriminate.
Defined.

(** A run in bounded mode with count 4 and a protocol the [switch]
    rejects: the process exits with status 1 in the first turn, no probe is
    made and the loop is never left by its [break]. *)
Lemma bounded_mode_unsupported_protocol_counterexample :
  let cfg := with_type "ftp" sample_cfg in
  continuous cfg = false /\ count cfg = 4 /\
  (forall fuel : nat,
     exists s' : Sys,
       run_loop sample_world (S fuel) cfg start = (Exit 1, s') /\
       filter is_probe (trace s') = []) /\
  ~ (exists (fuel : nat) (st : Loop) (s' : Sys),
       run_loop sample_world fuel cfg start = (Ret st, s') /\
       List.length (results st) = 4%nat).
Proof.
  cbn zeta. split; [reflexivity|]. split; [reflexivity|]. split.
  - intros fuel. eexists. split; reflexivity.
  - intros (fuel & st & s' & H & _). destruct fuel; discriminate.
Qed.

(** With a protocol the [switch] rejects, a bounded run prints no summary
    and a run with count 0 does not go on for ever; and with count 0 and a
    supported protocol the loop does not sleep, while unbounded mode
    does. *)
Lemma loop_exit_unsupported_protocol_counterexample :
  let cfg := with_type "ftp" sample_cfg in
  (continuous cfg = false /\ 1 <= count cfg) /\
  ~ (exists (fuel : nat) (s' : Sys),
       main sample_world fuel cfg start = (Ret tt, s')) /\
  (continuous (with_count 0 cfg) = false /\ count (with_count 0 cfg) <= 0) /\
  (forall fuel : nat,
     exists s' : Sys,
       main sample_world (S fuel) (with_count 0 cfg) start = (Exit 1, s')) /\
  filter is_sleep
    (trace (snd (main sample_world 2 (with_count 0 sample_cfg) start))) = [] /\
  filter is_sleep
    (trace (snd (main sample_world 2 (with_continuous true sample_cfg) start)))
  = [EvSleep 1000000000; EvSleep 1000000000].
Proof.
  cbn zeta. split; [split; [reflexivity | discriminate]|]. split.
  - intros (fuel & s' & H). destruct fuel; discriminate.
  - split; [split; [reflexivity | discriminate]|].
    split; [intros fuel; eexists; reflexivity|].
    split; reflexivity.
Qed.

Lemma bounded_mode_makes_count_attempts_witness :
  exists (st : Loop) (s' : Sys),
    run_loop sample_world 5 sample_cfg start = (Ret st, s') /\
    List.length (results st) = 4%nat /\
    flat_map line_number (trace s') = [1; 2; 3; 4] /\
    List.length (filter is_sleep (trace s')) = 3%nat.
Proof.
  destruct (bounded_mode_makes_count_attempts sample_world sample_cfg)
    as (st & s' & Hrun & Hlen & _ & _ & _ & Hlines & Hsleeps).
  - discriminate.
  - left. reflexivity.
  - reflexivity.
  - unfold max_int64. cbn. lia.
  - exists st, s'. split; [apply Hrun; cbn; lia|].
    split; [exact Hlen|]. split; [exact Hlines|].
    rewrite Hsleeps. reflexivity.
Defined.

Lemma loop_terminates_iff_bounded_witness :
  (exists (fuel : nat) (s' : Sys),
     main sample_world fuel sample_cfg start = (Ret tt, s') /\
     filter is_summary (trace s') = [EvPrint MsgSummaryTitle]) /\
  (forall fuel : nat,
   exists s' : Sys,
     main sample_world fuel (with_count 0 sample_cfg) start = (Running, s') /\
     calls s' = fuel).
Proof.
  split.
  - refine (proj2 (proj1 (loop_terminates_iff_bounded sample_world sample_cfg
                            _ _ _)) _).
    + discriminate.
    + left. reflexivity.
    + unfold max_int64. cbn. lia.
    + split; [reflexivity | cbn; lia].
  - intros fuel.
    assert (target (with_count 0 sample_cfg) <> "") as Ht by discriminate.
    assert (supported sample_world (with_count 0 sample_cfg)) as Hs
      by (left; reflexivity).
    assert (count (with_count 0 sample_cfg) <= max_int64) as Hm
      by (unfold max_int64; cbn; lia).
    assert (count (with_count 0 sample_cfg) <= 0) as H0 by (cbn; lia).
    destruct (proj1 (proj2 (loop_terminates_iff_bounded sample_world
                              (with_count 0 sample_cfg) Ht Hs Hm))
                (or_intror H0) fuel)
      as (s' & H & Hc & _).
    exists s'. split; assumption.
Defined.

Lemma health_verdict_follows_rate_bands_witness :
  exists (before : list Event) (color : string),
    summary nine_of_ten 9 108000000
    = before ++ [EvPrint (MsgHealth color good)].
Proof.
  destruct (health_verdict_follows_rate_bands nine_of_ten 9 108000000)
    as (before & color & status & E & Hv & _).
  - discriminate.
  - cbn. lia.
  - cbn. lia.
  - exists before, color. rewrite E, Hv. reflexivity.
Defined.

Lemma summary_counts_and_loss_witness :
  exists (st : Loop) (s1 : Sys),
    run_loop sample_world 5 sample_cfg start = (Ret st, s1) /\
    len (results st) = 4 /\
    len (successes (results st)) + len (failures (results st)) = 4 /\
    exists t : Z,
      fmt_tenths (percent (len (failures (results st))) (len (results st)))
      = Some t /\
      Z.abs (2 * (t * len (results st))
             - 2000 * len (failures (results st)))
      <= len (results st).
Proof.
  eexists. eexists. split; [vm_compute; reflexivity|].
  match goal with
  | |- len (results ?st) = _ /\ _ =>
      destruct (summary_counts_and_loss sample_world 5 sample_cfg st
                  {| calls := 4;
                     trace := trace (snd (run_loop sample_world 5 sample_cfg start)) |})
        as (_ & HN & _ & Hsum & _ & t & Ht & _ & _ & Hnear & _)
  end.
  - cbn. lia.
  - vm_compute. reflexivity.
  - split; [exact HN|]. split; [rewrite Hsum; exact HN|].
    exists t. split; [exact Ht|]. apply Hnear. rewrite HN. cbn. lia.
Defined.

Lemma summary_latency_statistics_witness :
  exists (st : Loop) (s1 : Sys),
    run_loop sample_world 5 sample_cfg start = (Ret st, s1) /\
    (exists a : Z,
       In (EvPrint (MsgAverage a))
          (summary (results st) (successCount st) (totalTime st))) /\
    successes (results st) <> [].
Proof.
  eexists. eexists. split; [vm_compute; reflexivity|].
  match goal with
  | |- (exists a, In _ (summary (results ?st) _ _)) /\ _ =>
      destruct (summary_latency_statistics sample_world 5 sample_cfg st
                  {| calls := 4;
                     trace := trace (snd (run_loop sample_world 5 sample_cfg start)) |})
        as ([_ Havg] & _)
  end.
  - unfold max_int64. cbn. lia.
  - vm_compute. reflexivity.
  - assert (successes
              (results
                 {| results :=
                      [{| Target := "example.com"; Success := true;
                          ResponseTime := 12000000; StatusCode := 200;
                          Error := None |};
                       {| Target := "example.com"; Success := false;
                          ResponseTime := 24000000; StatusCode := 503;
                          Error := None |};
                       {| Target := "example.com"; Success := true;
                          ResponseTime := 36000000; StatusCode := 200;
                          Error := None |};
                       {| Target := "example.com"; Success := false;
                          ResponseTime := 48000000; StatusCode := 503;
                          Error := None |}];
                    successCount := 2; totalTime := 48000000;
                    iteration := 4 |}) <> []) as Hne by discriminate.
    split; [apply Havg, Hne | exact Hne].
Defined.

(* ================================================================== *)
(** * Part III: further properties of the code *)
(* ================================================================== *)

(** ** Exits *)

Section Exits.

Variable w : World.

Lemma probe_unsupported (cfg : Config) (s : Sys) :
  ~ supported w cfg ->
  probe w cfg s
  = (Exit 1, {| calls := calls s;
                trace := trace s ++ [EvPrint (MsgUnsupported (pingType cfg))] |}).
Proof.
  unfold supported, probe. cbn [In]. intros Hns.
  destruct (String.eqb_spec (ToLower w (pingType cfg)) "http") as [E|_];
    [symmetry in E; tauto|].
  destruct (String.eqb_spec (ToLower w (pingType cfg)) "https") as [E|_];
    [symmetry in E; tauto|].
  destruct (String.eqb_spec (ToLower w (pingType cfg)) "tcp") as [E|_];
    [symmetry in E; tauto|].
  destruct (String.eqb_spec (ToLower w (pingType cfg)) "icmp") as [E|_];
    [symmetry in E; tauto|].
  reflexivity.
Qed.

Lemma supported_dec (cfg : Config) : supported w cfg \/ ~ supported w cfg.
Proof.
  unfold supported.
  destruct (in_dec string_dec (ToLower w (pingType cfg))
              ["http"; "https"; "tcp"; "icmp"]); auto.
Qed.

(** With a supported protocol a turn of the loop never exits. *)
Lemma loop_body_supported (cfg : Config) (pingCount : Z) (st : Loop) (s : Sys) :
  supported w cfg ->
  exists (r : option Loop) (s' : Sys),
    loop_body w cfg pingCount st s = (Ret r, s').
Proof.
  intros Hsup.
  destruct ((pingCount >? 0) && (iteration st >=? pingCount)) eqn:E.
  - unfold loop_body. rewrite E. eexists. eexists. reflexivity.
  - destruct (loop_body_turn w cfg pingCount st s Hsup E)
      as (r & evs & _ & _ & _ & _ & _ & H).
    rewrite H. eexists. eexists. reflexivity.
Qed.

Lemma driver_supported (cfg : Config) (pingCount : Z) :
  supported w cfg ->
  forall (fuel : nat) (st : Loop) (s : Sys) (c : Z) (s' : Sys),
    driver w fuel cfg pingCount st s <> (Exit c, s').
Proof.
  intros Hsup. induction fuel as [|fuel IH]; intros st s c s'.
  - discriminate.
  - cbn [driver].
    destruct (loop_body_supported cfg pingCount st s Hsup) as (r & s1 & H).
    rewrite (bind_Ret _ _ _ _ _ H). destruct r as [st'|]; [apply IH|discriminate].
Qed.

(** With an unsupported protocol the loop exits in its first turn, whatever
    the state it starts from. *)
Lemma driver_unsupported (cfg : Config) (pingCount : Z) (fuel : nat) (s : Sys) :
  ~ supported w cfg ->
  driver w (S fuel) cfg pingCount initial s
  = (Exit 1, {| calls := calls s;
                trace := trace s ++ [EvPrint (MsgUnsupported (pingType cfg))] |}).
Proof.
  intros Hns. cbn [driver]. unfold bind at 1. unfold loop_body.
  cbn [iteration initial].
  replace ((pingCount >? 0) && (0 >=? pingCount)) with false
    by (symmetry; destruct pingCount; reflexivity).
  unfold bind at 1. rewrite (probe_unsupported cfg s Hns). reflexivity.
Qed.

Lemma main_without_target (fuel : nat) (cfg : Config) :
  target cfg = "" ->
  main w fuel cfg start
  = (Exit 1, {| calls := 0; trace := [EvPrint MsgNoTarget; EvUsage] |}).
Proof.
  intros Ht. unfold main, run_loop. rewrite Ht. reflexivity.
Qed.

(** X1. The exits of [main]'s own code, for a run whose flags
    [flag.Parse] has accepted. Without a target [main] prints the error and
    the usage and exits with status 1 whatever the other flags: no header,
    no look at the protocol, no network call. Whenever such a run ends
    through one of the two [os.Exit] calls of [main], its status is 1, no
    network call has been made, and the target is missing or the protocol
    is not supported; and each of these two faults does end the run that
    way, by the first turn of the loop at the latest. *)
Theorem exit_status_is_1_before_any_probe :
  forall (fuel : nat) (cfg : Config),
    (target cfg = "" ->
     main w fuel cfg start
     = (Exit 1, {| calls := 0; trace := [EvPrint MsgNoTarget; EvUsage] |})) /\
    (forall (c : Z) (s' : Sys),
       main w fuel cfg start = (Exit c, s') ->
       c = 1 /\ calls s' = 0%nat /\ filter is_probe (trace s') = [] /\
       (target cfg = "" \/ ~ supported w cfg)) /\
    (target cfg = "" \/ ~ supported w cfg ->
     exists s' : Sys, main w (S fuel) cfg start = (Exit 1, s')).
Proof.
  intros fuel cfg. split; [apply main_without_target|]. split.
  - intros c s' H.
    destruct (string_dec (target cfg) "") as [Ht|Ht].
    + rewrite (main_without_target fuel cfg Ht) in H.
      injection H as <- <-. cbn. auto.
    + unfold main, bind in H.
      rewrite (run_loop_with_target w fuel cfg Ht) in H.
      destruct (supported_dec cfg) as [Hs|Hs].
      * destruct (driver w fuel cfg (pingCount_of cfg) initial
                    {| calls := 0; trace := header w cfg |})
          as [[st|c'|] s1] eqn:E.
        -- rewrite printSummary_run in H. discriminate.
        -- exfalso. exact (driver_supported cfg _ Hs _ _ _ _ _ E).
        -- discriminate.
      * destruct fuel as [|fuel]; [discriminate|].
        rewrite (driver_unsupported cfg _ fuel _ Hs) in H.
        injection H as <- <-. cbn. auto.
  - intros [Ht|Hs].
    + eexists. apply main_without_target, Ht.
    + destruct (string_dec (target cfg) "") as [Ht|Ht].
      * eexists. apply main_without_target, Ht.
      * eexists. unfold main, bind.
        rewrite (run_loop_with_target w (S fuel) cfg Ht).
        rewrite (driver_unsupported cfg _ fuel _ Hs). reflexivity.
Qed.

End Exits.

(** ** Addresses *)

Lemma prefix_app (p s : string) : String.prefix p (p ++ s) = true.
Proof.
  induction p as [|c p IH]; cbn.
  - destruct s; reflexivity.
  - destruct (ascii_dec c c); [exact IH | contradiction].
Qed.

Lemma Contains_app_r (s t u : string) :
  Contains t u = true -> Contains (s ++ t) u = true.
Proof.
  intros H. induction s as [|c s IH]; cbn [append]; [exact H|].
  cbn [Contains]. rewrite IH. destruct (String.prefix u (String c (s ++ t))); reflexivity.
Qed.

Lemma Contains_at_front (s u : string) : Contains (u ++ s) u = true.
Proof.
  pose proof (prefix_app u s) as H.
  destruct (u ++ s)%string; cbn [Contains]; rewrite H; reflexivity.
Qed.

(** X2. The URL [pingHTTP] requests. A target that starts with [http://] or
    [https://] is requested as it is, whatever the protocol flag says (so
    [-type https] does not upgrade an [http://] target); any other target
    gets the protocol flag and [://] in front. When the flag is [http] or
    [https] the URL always starts with one of the two schemes, and
    normalising it again changes nothing. *)
Theorem pingHTTP_requests_normalised_url :
  forall (w : World) (target protocol : string) (timeout : Z) (s : Sys),
  exists (r : PingResult) (url : string),
    pingHTTP w target protocol timeout s
    = (Ret r, {| calls := S (calls s);
                 trace := trace s ++ [EvGet url timeout] |}) /\
    (HasPrefix target "http://" = true \/ HasPrefix target "https://" = true ->
     url = target) /\
    (HasPrefix target "http://" = false /\ HasPrefix target "https://" = false ->
     url = (protocol ++ "://" ++ target)%string) /\
    (protocol = "http" \/ protocol = "https" ->
     (HasPrefix url "http://" = true \/ HasPrefix url "https://" = true) /\
     http_url url protocol = url).
Proof.
  intros w tgt proto t s. destruct (pingHTTP_returns w tgt proto t s) as [r Hr].
  exists r, (http_url tgt proto). split; [exact Hr|].
  unfold http_url.
  destruct (HasPrefix tgt "http://") eqn:H1; destruct (HasPrefix tgt "https://") eqn:H2;
    cbn [negb andb].
  1,2,3: split; [reflexivity|]; split; [intros [? ?]; discriminate|];
    intros _; rewrite H1, H2; cbn; auto.
  split; [intros [?|?]; discriminate|]. split; [reflexivity|].
  intros [-> | ->].
  - assert (HasPrefix ("http" ++ "://" ++ tgt) "http://" = true) as E
      by (apply (prefix_app "http://" tgt)).
    rewrite E. cbn. auto.
  - assert (HasPrefix ("https" ++ "://" ++ tgt) "https://" = true) as E
      by (apply (prefix_app "https://" tgt)).
    rewrite E. rewrite andb_false_r. auto.
Qed.

(** X3. The address [pingTCP] dials always has a port separator, and
    completing it again changes nothing: a target with a colon anywhere
    (an IPv6 literal without a port, for one) is never given the default
    port. *)
Theorem tcp_addr_has_port_separator :
  forall target : string,
    Contains (tcp_addr target) ":" = true /\
    tcp_addr (tcp_addr target) = tcp_addr target /\
    (forall a b : string,
       target = (a ++ ":" ++ b)%string -> tcp_addr target = target).
Proof.
  intros tgt.
  assert (Contains (tcp_addr tgt) ":" = true) as H.
  { unfold tcp_addr. destruct (Contains tgt ":") eqn:E; cbn [negb]; [exact E|].
    apply Contains_app_r. reflexivity. }
  split; [exact H|]. split.
  - unfold tcp_addr at 1. rewrite H. reflexivity.
  - intros a b ->. unfold tcp_addr.
    rewrite (Contains_app_r a (":" ++ b) ":") by apply Contains_at_front.
    reflexivity.
Qed.

(** ** The line of an attempt *)

Section Lines.

Variable w : World.

(** X4. The line printed for an HTTP attempt. A response with a status from
    1 to 499 is reported with its status and the response time rounded to
    the millisecond; a response with status 500 or more is reported as a
    failed request whose error is nil (the status is not shown); a transport
    error is reported as a failed request with that error. *)
Theorem http_attempt_line :
  forall (target protocol : string) (timeout seq : Z) (s : Sys),
  exists (r : PingResult) (s' : Sys),
    pingHTTP w target protocol timeout s = (Ret r, s') /\
    match net_get w (calls s) (http_url target protocol) timeout with
    | (elapsed, HTTPResponse status) =>
        (0 < status < 500 ->
         result_line r seq
         = [EvPrint (MsgReplyHTTP seq target status
                       (Duration.Round elapsed Duration.Millisecond))]) /\
        (500 <= status ->
         result_line r seq = [EvPrint (MsgFailure seq target None)])
    | (_, HTTPError err) =>
        result_line r seq = [EvPrint (MsgFailure seq target (Some err))]
    end.
Proof.
  intros tgt proto t seq s. unfold pingHTTP, bind, client_Get.
  destruct (net_get w (calls s) (http_url tgt proto) t) as [elapsed [err|status]];
    eexists; eexists; (split; [reflexivity|]).
  - reflexivity.
  - unfold result_line, printResult. cbn [Success StatusCode Target ResponseTime Error].
    split; intros H.
    + replace (status <? 500) with true by (symmetry; apply Z.ltb_lt; lia).
      replace (status >? 0) with true
        by (symmetry; rewrite Z.gtb_ltb; apply Z.ltb_lt; lia).
      reflexivity.
    + replace (status <? 500) with false by (symmetry; apply Z.ltb_ge; lia).
      reflexivity.
Qed.

(** X5. The line printed for a TCP attempt never shows a status: a
    connection is reported as established with the response time rounded to
    the millisecond, an error as a failed request with that error; either
    way the line names the target as it was given, not the address
    dialed. *)
Theorem tcp_attempt_line :
  forall (target : string) (timeout seq : Z) (s : Sys),
  exists (r : PingResult) (s' : Sys),
    pingTCP w target timeout s = (Ret r, s') /\
    match net_dial w (calls s) (tcp_addr target) timeout with
    | (elapsed, DialConn) =>
        result_line r seq
        = [EvPrint (MsgReplyTCP seq target
                      (Duration.Round elapsed Duration.Millisecond))]
    | (_, DialError err) =>
        result_line r seq = [EvPrint (MsgFailure seq target (Some err))]
    end.
Proof.
  intros tgt t seq s. unfold pingTCP, bind, net_DialTimeout.
  destruct (net_dial w (calls s) (tcp_addr tgt) t) as [elapsed [err|]];
    eexists; eexists; (split; reflexivity).
Qed.

End Lines.

(** ** Modes *)

Section Modes.

Variable w : World.

(** X6. In continuous mode the count is not read: two runs that differ only
    in the count make the same calls, record the same results and print the
    same lines, turn by turn. *)
Theorem continuous_mode_ignores_count :
  forall (fuel : nat) (cfg : Config) (n1 n2 : Z) (s : Sys),
    continuous cfg = true ->
    run_loop w fuel (with_count n1 cfg) s = run_loop w fuel (with_count n2 cfg) s /\
    main w fuel (with_count n1 cfg) s = main w fuel (with_count n2 cfg) s.
Proof.
  intros fuel cfg n1 n2 s Hc.
  assert (run_loop w fuel (with_count n1 cfg) s
          = run_loop w fuel (with_count n2 cfg) s) as H.
  { unfold run_loop, pingCount_of. cbn [target pingType continuous with_count].
    rewrite Hc.
    match goal with
    | |- bind ?c _ s = _ => set (pre := c)
    end.
    unfold bind. destruct (pre s) as [[[]| |] s1]; try reflexivity.
    destruct (printHeader w (target cfg) (pingType cfg) s1) as [[[]| |] s2];
      try reflexivity.
    apply driver_ext. reflexivity. }
  split; [exact H|]. unfold main, bind. rewrite H. reflexivity.
Qed.

(** Every attempt of a loop that cannot break is followed by a sleep. *)
Lemma pauses_unbounded (cfg : Config) (K : Z) (d i : nat) :
  Z.of_nat (i + d) < K ->
  flat_map (pause cfg K) (seq i d)
  = repeat (EvSleep (Duration.seconds (interval cfg))) d.
Proof.
  revert i. induction d as [|d IH]; intros i H; [reflexivity|].
  cbn [seq flat_map repeat]. rewrite IH by lia. unfold pause.
  replace (Z.of_nat i + 1 <? K) with true by (symmetry; apply Z.ltb_lt; lia).
  reflexivity.
Qed.

(** The turns of a loop with a negative count. *)
Lemma driver_negative (cfg : Config) (pingCount K : Z) :
  supported w cfg -> pingCount < 0 ->
  forall (d i : nat) (st : Loop) (s : Sys),
    iteration st = Z.of_nat i -> calls s = i ->
    Z.of_nat (i + d) <= max_int64 -> Z.of_nat (i + d) < K ->
    exists (rs : list PingResult) (s' : Sys),
      driver w d cfg pingCount st s = (Running, s') /\
      Forall2 (fun j r => fst (attempt w cfg j) = Ret r) (seq i d) rs /\
      calls s' = (i + d)%nat /\
      trace s' = trace s ++ flat_map (turn w cfg K) (combine (seq i d) rs).
Proof.
  intros Hsup Hpc. induction d as [|d IH]; intros i st s Hi Hc Hmax HK.
  - exists [], s. cbn. rewrite app_nil_r. repeat split; [constructor | lia].
  - cbn [driver].
    assert ((pingCount >? 0) && (iteration st >=? pingCount) = false) as Hgo
      by (apply andb_false_intro1; rewrite Z.gtb_ltb; apply Z.ltb_ge; lia).
    destruct (loop_body_turn w cfg pingCount st s Hsup Hgo)
      as (r & evs & Hat & _ & _ & _ & _ & Hbody).
    rewrite (bind_Ret _ _ _ _ _ Hbody).
    assert (wrap64 (iteration st + 1) = Z.of_nat (S i)) as Hit
      by (rewrite wrap64_small; unfold in_int64, min_int64, max_int64 in *; lia).
    match type of Hbody with _ = (_, ?s1) => set (s1' := s1) in * end.
    destruct (IH (S i) (advance st r) s1') as (rs & s' & Hdr & Hall & Hcalls & Htr).
    + cbn. exact Hit.
    + cbn. rewrite Hc. reflexivity.
    + lia.
    + lia.
    + exists (r :: rs), s'. split; [exact Hdr|]. split; [|split].
      * cbn [seq]. constructor; [|exact Hall]. rewrite <- Hc, Hat. reflexivity.
      * lia.
      * rewrite Htr. subst s1'. cbn [trace seq combine flat_map turn].
        rewrite <- Hc. rewrite Hat. cbn [snd]. rewrite Hit. unfold pause.
        replace (pingCount <? 0) with true by (symmetry; apply Z.ltb_lt; lia).
        cbn [orb]. rewrite Hc.
        replace (Z.of_nat i + 1 <? K) with true
          by (symmetry; apply Z.ltb_lt; lia).
        replace (Z.of_nat (S i)) with (Z.of_nat i + 1) by lia.
        rewrite <- !app_assoc. reflexivity.
Qed.

(** Where no turn is the last one, a turn is its probe, its line and a
    sleep. *)
Lemma turns_unbounded (cfg : Config) (K : Z) (l : list (nat * PingResult)) :
  (forall j r, In (j, r) l -> Z.of_nat j + 1 < K) ->
  flat_map (turn w cfg K) l
  = flat_map (fun '(j, r) =>
                snd (attempt w cfg j) ++ result_line r (Z.of_nat j + 1)
                  ++ [EvSleep (Duration.seconds (interval cfg))]) l.
Proof.
  induction l as [|[j r] l IH]; intros H; [reflexivity|].
  cbn [flat_map turn].
  rewrite IH by (intros j0 r0 Hin; apply (H j0 r0); right; assumption).
  unfold pause.
  replace (Z.of_nat j + 1 <? K) with true
    by (symmetry; apply Z.ltb_lt, (H j r); left; reflexivity).
  reflexivity.
Qed.

Lemma combine_seq_bound {A} (i d : nat) (l : list A) (j : nat) (a : A) :
  In (j, a) (combine (seq i d) l) -> (j < i + d)%nat.
Proof.
  intros H. apply in_combine_l in H. apply in_seq in H. lia.
Qed.

(** X7. Unbounded mode (continuous, or a negative count), with a target and
    a supported protocol: after [k] turns the loop is still running. Its
    trace is the header followed, for each attempt, by the probe, the
    attempt line and a sleep of the configured interval, the last attempt
    included: [k] network calls, lines numbered [1], ..., [k], and [k]
    sleeps. *)
Theorem unbounded_mode_turns :
  forall (cfg : Config) (k : nat),
    target cfg <> "" -> supported w cfg -> pingCount_of cfg < 0 ->
    Z.of_nat k <= max_int64 ->
    exists (rs : list PingResult) (s' : Sys),
      main w k cfg start = (Running, s') /\
      Forall2 (fun j r => fst (attempt w cfg j) = Ret r) (seq 0 k) rs /\
      trace s'
      = header w cfg
          ++ flat_map (fun '(j, r) =>
                         snd (attempt w cfg j)
                           ++ result_line r (Z.of_nat j + 1)
                           ++ [EvSleep (Duration.seconds (interval cfg))])
               (combine (seq 0 k) rs) /\
      List.length (filter is_probe (trace s')) = k /\
      flat_map line_number (trace s') = map (fun j => Z.of_nat j + 1) (seq 0 k) /\
      filter is_sleep (trace s')
      = repeat (EvSleep (Duration.seconds (interval cfg))) k.
Proof.
  intros cfg k Ht Hsup Hpc Hk.
  assert (Z.of_nat (0 + k) <= max_int64) as Hk1 by (cbn [Nat.add]; exact Hk).
  assert (Z.of_nat (0 + k) < Z.of_nat k + 1) as Hk2 by (cbn [Nat.add]; lia).
  destruct (driver_negative cfg (pingCount_of cfg) (Z.of_nat k + 1) Hsup Hpc
              k 0%nat initial {| calls := 0; trace := header w cfg |}
              eq_refl eq_refl Hk1 Hk2)
    as (rs & s' & Hdr & Hall & Hcalls & Htr).
  rewrite <- (run_loop_with_target w k cfg Ht) in Hdr.
  exists rs, s'. split; [apply main_while_running, Hdr|]. split; [exact Hall|].
  cbn [trace] in Htr.
  assert (List.length rs = k) as Hlen
    by (apply Forall2_length in Hall; rewrite length_seq in Hall; auto).
  destruct (turns_events w cfg (Z.of_nat k + 1) Hsup k 0%nat rs Hlen)
    as (Hp & Hl & Hs & _).
  split.
  - rewrite Htr. f_equal. apply turns_unbounded.
    intros j r Hin. apply combine_seq_bound in Hin. lia.
  - rewrite Htr, !filter_app, !flat_map_app, !length_app, Hp, Hl, Hs.
    rewrite header_events.
    cbn [filter is_probe is_sleep flat_map line_number List.length app Nat.add].
    split; [reflexivity|]. split; [reflexivity|].
    apply pauses_unbounded. exact Hk2.
Qed.

End Modes.

(** ** What every run keeps to *)

Lemma keeps_ret {A} (P : Event -> Prop) (a : A) : keeps P (ret a).
Proof. intros s H. exact H. Qed.

Lemma keeps_bind {A B} (P : Event -> Prop) (c : IO A) (k : A -> IO B) :
  keeps P c -> (forall a, keeps P (k a)) -> keeps P (bind c k).
Proof.
  intros Hc Hk s H. unfold bind. specialize (Hc s H).
  destruct (c s) as [[a|code|] s1]; cbn [snd] in *;
    [apply Hk; assumption | assumption | assumption].
Qed.

Lemma keeps_emit (P : Event -> Prop) (e : Event) : P e -> keeps P (emit e).
Proof.
  intros He s H. cbn. apply Forall_app. split; [exact H | repeat constructor; exact He].
Qed.

Lemma keeps_exit {A} (P : Event -> Prop) (code : Z) : keeps P (@os_Exit A code).
Proof. intros s H. exact H. Qed.

Section Kept.

Variable w : World.
Variable cfg : Config.

Lemma keeps_printResult (r : PingResult) (seq : Z) :
  keeps (configured cfg) (printResult r seq).
Proof.
  unfold printResult.
  destruct (Success r); [destruct (StatusCode r >? 0)|];
    apply keeps_emit; exact I.
Qed.

Lemma keeps_pingHTTP :
  keeps (configured cfg)
    (pingHTTP w (target cfg) (pingType cfg) (Duration.seconds (timeout cfg))).
Proof.
  intros s H. unfold pingHTTP, bind, client_Get.
  destruct (net_get w (calls s) _ _) as [elapsed [err|status]]; cbn;
    (apply Forall_app; split; [exact H | repeat constructor]).
Qed.

Lemma keeps_pingTCP :
  keeps (configured cfg)
    (pingTCP w (target cfg) (Duration.seconds (timeout cfg))).
Proof.
  intros s H. unfold pingTCP, bind, net_DialTimeout.
  destruct (net_dial w (calls s) _ _) as [elapsed [err|]]; cbn;
    (apply Forall_app; split; [exact H | repeat constructor]).
Qed.

Lemma keeps_probe : keeps (configured cfg) (probe w cfg).
Proof.
  unfold probe.
  destruct (_ || _); [apply keeps_pingHTTP|].
  destruct (String.eqb _ "tcp"); [apply keeps_pingTCP|].
  destruct (String.eqb _ "icmp").
  - apply keeps_bind; [apply keeps_emit; exact I | intros; apply keeps_pingTCP].
  - apply keeps_bind; [apply keeps_emit; exact I | intros; apply keeps_exit].
Qed.

Lemma keeps_loop_body (pingCount : Z) (st : Loop) :
  keeps (configured cfg) (loop_body w cfg pingCount st).
Proof.
  unfold loop_body. destruct (_ && _); [apply keeps_ret|].
  apply keeps_bind; [apply keeps_probe|]. intros r.
  apply keeps_bind; [apply keeps_printResult|]. intros _.
  apply keeps_bind; [|intros; apply keeps_ret].
  destruct (_ || _); [apply keeps_emit; reflexivity | apply keeps_ret].
Qed.

Lemma keeps_driver (fuel : nat) (pingCount : Z) (st : Loop) :
  keeps (configured cfg) (driver w fuel cfg pingCount st).
Proof.
  revert st. induction fuel as [|fuel IH]; intros st.
  - intros s H. exact H.
  - cbn [driver]. apply keeps_bind; [apply keeps_loop_body|].
    intros [st'|]; [apply IH | apply keeps_ret].
Qed.

Lemma keeps_printSummary (rs : list PingResult) (sc total : Z) :
  keeps (configured cfg) (printSummary rs sc total).
Proof.
  intros s H. rewrite printSummary_run. cbn [snd trace].
  apply Forall_app. split; [exact H|]. rewrite summary_lines.
  destruct (sc >? 0); repeat constructor.
Qed.

(** X8. Whatever the flags, the fuel and the answers of the network, every
    network call of a run goes to the address made from the configured
    target (the normalised URL, or the target with its default port) with
    the configured timeout, and every sleep lasts the configured interval:
    the program contacts no other address. *)
Theorem every_call_uses_the_configuration :
  forall fuel : nat,
    Forall (configured cfg) (trace (snd (main w fuel cfg start))).
Proof.
  intros fuel.
  assert (keeps (configured cfg) (main w fuel cfg)) as H;
    [|apply H; constructor].
  unfold main, run_loop.
  apply keeps_bind; [|intros st; apply keeps_printSummary].
  apply keeps_bind.
  - destruct (String.eqb (target cfg) ""); [|apply keeps_ret].
    apply keeps_bind; [apply keeps_emit; exact I|]. intros _.
    apply keeps_bind; [apply keeps_emit; exact I | intros; apply keeps_exit].
  - intros _. apply keeps_bind; [|intros; apply keeps_driver].
    unfold printHeader.
    repeat (apply keeps_bind; [apply keeps_emit; exact I | intros _]).
    apply keeps_emit. exact I.
Qed.

End Kept.

(** ** ICMP mode *)

Lemma filter_filter_implied {A} (f g : A -> bool) (l : list A) :
  (forall x, f x = true -> g x = true) ->
  filter f (filter g l) = filter f l.
Proof.
  intros H. induction l as [|x l IH]; [reflexivity|]. cbn.
  destruct (g x) eqn:Eg; cbn; rewrite IH; [reflexivity|].
  destruct (f x) eqn:Ef; [|reflexivity].
  apply H in Ef. congruence.
Qed.

Lemma probes_beside_protocol (l : list Event) :
  filter is_probe (filter beside_protocol l) = filter is_probe l.
Proof.
  apply filter_filter_implied. intros [[]| | | |]; cbn; congruence.
Qed.

(** The summary has no network call and no notice. *)
Lemma summary_probes (rs : list PingResult) (sc total : Z) :
  filter is_probe (summary rs sc total) = [] /\
  filter is_notice (summary rs sc total) = [].
Proof.
  rewrite summary_lines. destruct (sc >? 0); split; reflexivity.
Qed.

Section Icmp.

Variable w : World.

(** One turn in ICMP mode and in TCP mode. *)
Lemma loop_body_icmp_tcp (cfg : Config) (ti tt : string) (pingCount : Z)
  (st : Loop) (s1 s2 : Sys) :
  ToLower w ti = "icmp" -> ToLower w tt = "tcp" ->
  alike s1 s2 ->
  let r1 := loop_body w (with_type ti cfg) pingCount st s1 in
  let r2 := loop_body w (with_type tt cfg) pingCount st s2 in
  fst r1 = fst r2 /\ alike (snd r1) (snd r2).
Proof.
  intros Hi Ht (Hc & Hf & Hn & Hz). cbn zeta. unfold alike, loop_body.
  destruct ((pingCount >? 0) && (iteration st >=? pingCount));
    [cbn; auto|].
  unfold probe. cbn [pingType target timeout interval with_type].
  rewrite Hi, Ht. cbn [String.eqb Ascii.eqb Bool.eqb orb].
  unfold bind, print, emit, pingTCP, bind, net_DialTimeout. cbn [calls trace].
  rewrite Hc.
  destruct (net_dial w (calls s2) (tcp_addr (target cfg))
              (Duration.seconds (timeout cfg))) as [elapsed [err|]];
    cbn -[advance wrap64 Duration.Round Duration.seconds tcp_addr];
    match goal with
    | |- context [if ?b then Sleep _ else _] => destruct b
    end;
    cbn -[advance wrap64 Duration.Round Duration.seconds tcp_addr];
    rewrite !filter_app, ?length_app, Hf, Hz, Hn;
    cbn -[advance wrap64 Duration.Round Duration.seconds tcp_addr];
    rewrite ?app_nil_r; repeat split; try reflexivity; lia.
Qed.

Lemma driver_icmp_tcp (cfg : Config) (ti tt : string) (pingCount : Z) :
  ToLower w ti = "icmp" -> ToLower w tt = "tcp" ->
  forall (fuel : nat) (st : Loop) (s1 s2 : Sys),
    alike s1 s2 ->
    let r1 := driver w fuel (with_type ti cfg) pingCount st s1 in
    let r2 := driver w fuel (with_type tt cfg) pingCount st s2 in
    fst r1 = fst r2 /\ alike (snd r1) (snd r2).
Proof.
  intros Hi Ht. induction fuel as [|fuel IH]; intros st s1 s2 Ha.
  - cbn. auto.
  - cbn zeta. cbn [driver]. unfold bind.
    pose proof (loop_body_icmp_tcp cfg ti tt pingCount st s1 s2 Hi Ht Ha)
      as (E & Ha').
    destruct (loop_body w (with_type ti cfg) pingCount st s1) as [o1 t1].
    destruct (loop_body w (with_type tt cfg) pingCount st s2) as [o2 t2].
    cbn [fst snd] in *. subst o2.
    destruct o1 as [[st'|]|code|]; cbn [fst snd ret];
      [apply IH; assumption|auto..].
Qed.

Lemma run_loop_icmp_tcp (fuel : nat) (cfg : Config) (ti tt : string) :
  ToLower w ti = "icmp" -> ToLower w tt = "tcp" ->
  let r1 := run_loop w fuel (with_type ti cfg) start in
  let r2 := run_loop w fuel (with_type tt cfg) start in
  fst r1 = fst r2 /\ alike (snd r1) (snd r2).
Proof.
  intros Hi Ht. cbn zeta.
  destruct (string_dec (target cfg) "") as [Hnt|Hnt].
  - unfold run_loop, alike. cbn [target with_type]. rewrite Hnt. cbn. auto.
  - rewrite !run_loop_with_target by exact Hnt.
    apply driver_icmp_tcp; try assumption. repeat split.
Qed.

(** X9. ICMP mode is TCP mode with a notice. A run whose protocol flag
    lower-cases to [icmp] and the run with the same flags and a protocol
    that lower-cases to [tcp] end alike: the same recorded results, the
    same exit status, the same dials. Their traces differ only in the
    protocol line of the header and in the notice, which ICMP mode prints
    once per dial and TCP mode never. *)
Theorem icmp_mode_is_tcp_mode_with_notice :
  forall (fuel : nat) (cfg : Config) (ti tt : string),
    ToLower w ti = "icmp" -> ToLower w tt = "tcp" ->
    let r1 := main w fuel (with_type ti cfg) start in
    let r2 := main w fuel (with_type tt cfg) start in
    fst (run_loop w fuel (with_type ti cfg) start)
    = fst (run_loop w fuel (with_type tt cfg) start) /\
    fst r1 = fst r2 /\
    filter is_probe (trace (snd r1)) = filter is_probe (trace (snd r2)) /\
    filter beside_protocol (trace (snd r1))
    = filter beside_protocol (trace (snd r2)) /\
    List.length (filter is_notice (trace (snd r1)))
    = List.length (filter is_probe (trace (snd r1))) /\
    filter is_notice (trace (snd r2)) = [].
Proof.
  intros fuel cfg ti tt Hi Ht. cbn zeta.
  pose proof (run_loop_icmp_tcp fuel cfg ti tt Hi Ht) as (E & Hc & Hf & Hn & Hz).
  split; [exact E|].
  assert (fst (main w fuel (with_type ti cfg) start)
          = fst (main w fuel (with_type tt cfg) start) /\
          alike (snd (main w fuel (with_type ti cfg) start))
                (snd (main w fuel (with_type tt cfg) start)))
    as (E' & _ & Hf' & Hn' & Hz').
  { unfold main, bind.
    destruct (run_loop w fuel (with_type ti cfg) start) as [o1 t1].
    destruct (run_loop w fuel (with_type tt cfg) start) as [o2 t2].
    cbn [fst snd] in *. subst o2.
    destruct o1 as [st|code|]; [|repeat split; assumption..].
    rewrite !printSummary_run. unfold alike. cbn [fst snd calls trace].
    destruct (summary_probes (results st) (successCount st) (totalTime st))
      as [Hp Hs].
    rewrite !filter_app, !length_app, Hf, Hn, Hz, Hp, Hs.
    repeat split. exact Hc. }
  split; [exact E'|]. split; [|auto].
  rewrite <- probes_beside_protocol, Hf'. apply probes_beside_protocol.
Qed.

End Icmp.

(** ** What the loop records *)

Section Recorded.

Variable w : World.

(** A probe that returns has made one network call and printed no
    attempt line; its result is sound. *)
Lemma probe_returns (cfg : Config) (s s0 : Sys) (r : PingResult) :
  probe w cfg s = (Ret r, s0) ->
  sound_result cfg r /\
  exists evs : list Event,
    trace s0 = trace s ++ evs /\
    List.length (filter is_probe evs) = 1%nat /\
    filter is_reply evs = [] /\
    filter is_failure_line evs = [] /\
    flat_map counts_line evs = [].
Proof.
  unfold probe, sound_result.
  destruct (_ || _); [|destruct (String.eqb _ "tcp");
                        [|destruct (String.eqb _ "icmp")]].
  - unfold pingHTTP, bind, client_Get.
    destruct (net_get w (calls s) _ _) as [elapsed [err|status]];
      intros H; injection H as <- <-; cbn [Target Success StatusCode Error trace];
      (split; [auto|]); eexists; (split; [reflexivity|]); cbn; auto.
  - unfold pingTCP, bind, net_DialTimeout.
    destruct (net_dial w (calls s) _ _) as [elapsed [err|]];
      intros H; injection H as <- <-; cbn [Target Success StatusCode Error trace];
      (split; [auto|]); eexists; (split; [reflexivity|]); cbn; auto.
  - unfold pingTCP, bind, print, emit, net_DialTimeout. cbn [calls trace].
    destruct (net_dial w (calls s) _ _) as [elapsed [err|]];
      intros H; injection H as <- <-; cbn [Target Success StatusCode Error trace];
      (split; [auto|]); eexists; (rewrite <- app_assoc; split; [reflexivity|]);
      cbn; auto.
  - unfold bind, print, emit, os_Exit. discriminate.
Qed.

(** A turn that goes on has probed once, printed the line of the result
    and appended the result to the sequence. *)
Lemma loop_body_records (cfg : Config) (pingCount : Z) (st st' : Loop)
  (s s' : Sys) :
  loop_body w cfg pingCount st s = (Ret (Some st'), s') ->
  exists (r : PingResult) (s0 : Sys) (z : list Event),
    probe w cfg s = (Ret r, s0) /\
    st' = advance st r /\
    trace s' = trace s0 ++ result_line r (wrap64 (iteration st + 1)) ++ z /\
    (z = [] \/ z = [EvSleep (Duration.seconds (interval cfg))]).
Proof.
  unfold loop_body.
  destruct ((pingCount >? 0) && (iteration st >=? pingCount));
    [discriminate|].
  intros H. apply bind_inv in H as (r & s0 & Hp & H).
  apply bind_inv in H as ([] & s1 & Hl & H).
  apply bind_inv in H as ([] & s2 & Hz & H).
  injection H as <- <-. rewrite printResult_run in Hl. injection Hl as <-.
  exists r, s0.
  destruct (_ || _); injection Hz as <-; cbn [trace].
  - exists [EvSleep (Duration.seconds (interval cfg))].
    rewrite <- app_assoc. auto.
  - exists []. rewrite app_nil_r. auto.
Qed.

(** What holds of the loop variables and the trace at every turn holds at
    the [break]. *)
Lemma driver_steps (P : Loop -> Sys -> Prop) (cfg : Config) (pingCount : Z) :
  (forall st s st' s',
     P st s -> loop_body w cfg pingCount st s = (Ret (Some st'), s') ->
     P st' s') ->
  forall (fuel : nat) (st st' : Loop) (s s' : Sys),
    driver w fuel cfg pingCount st s = (Ret st', s') -> P st s -> P st' s'.
Proof.
  intros Hstep. induction fuel as [|fuel IH]; intros st st' s s' H HP.
  - discriminate.
  - cbn [driver] in H. apply bind_inv in H as ([st1|] & s1 & Hb & H).
    + apply (IH _ _ _ _ H). apply (Hstep _ _ _ _ HP Hb).
    + injection H as <- <-. apply loop_body_break in Hb as [_ ->]. exact HP.
Qed.

(** A run that leaves the loop had a target, printed the header and ran
    the loop from its initial state. *)
Lemma run_loop_returns (fuel : nat) (cfg : Config) (st : Loop) (s1 : Sys) :
  run_loop w fuel cfg start = (Ret st, s1) ->
  driver w fuel cfg (pingCount_of cfg) initial
    {| calls := 0; trace := header w cfg |} = (Ret st, s1).
Proof.
  intros H. destruct (string_dec (target cfg) "") as [Ht|Ht].
  - unfold run_loop in H. rewrite Ht in H. discriminate.
  - rewrite <- run_loop_with_target by exact Ht. exact H.
Qed.

(** X10. Every result a completed run has recorded names the configured
    target; a result with an error is a failure with status 0, and a result
    without an error is a success exactly when its status is below 500. *)
Theorem recorded_results_are_sound :
  forall (fuel : nat) (cfg : Config) (st : Loop) (s1 : Sys),
    run_loop w fuel cfg start = (Ret st, s1) ->
    Forall (sound_result cfg) (results st).
Proof.
  intros fuel cfg st s1 H. apply run_loop_returns in H.
  apply (driver_steps (fun st _ => Forall (sound_result cfg) (results st))
           cfg (pingCount_of cfg)) in H; [exact H| |constructor].
  intros st0 s st' s' HP Hb.
  apply loop_body_records in Hb as (r & s0 & z & Hp & -> & _).
  apply probe_returns in Hp as [Hr _].
  cbn [results advance]. apply Forall_app. split; [exact HP|].
  constructor; [exact Hr | constructor].
Qed.

Lemma result_line_kind (r : PingResult) (seq : Z) :
  List.length (filter is_reply (result_line r seq))
  = List.length (successes [r]) /\
  List.length (filter is_failure_line (result_line r seq))
  = List.length (failures [r]) /\
  flat_map counts_line (result_line r seq) = [].
Proof.
  unfold result_line, printResult, successes, failures. cbn [filter].
  destruct (Success r); [destruct (StatusCode r >? 0)|]; cbn; auto.
Qed.

Lemma tallied_at_break (fuel : nat) (cfg : Config) (st : Loop) (s1 : Sys) :
  run_loop w fuel cfg start = (Ret st, s1) -> tallied st s1.
Proof.
  intros H. apply run_loop_returns in H.
  apply (driver_steps tallied cfg (pingCount_of cfg)) in H; [exact H| |].
  - intros st0 s st' s' (Hp & Hr & Hf & Hc) Hb.
    apply loop_body_records in Hb as (r & s0 & z & Hpr & -> & Htr & Hz).
    apply probe_returns in Hpr as (_ & evs & E0 & Ep & Er & Ef & Ec).
    rewrite E0 in Htr.
    destruct (result_line_number r (wrap64 (iteration st0 + 1)))
      as (_ & Lp & _ & _).
    destruct (result_line_kind r (wrap64 (iteration st0 + 1)))
      as (Lr & Lf & Lc).
    unfold tallied, successes, failures in *. rewrite Htr. cbn [results advance].
    rewrite !filter_app, !flat_map_app, !length_app, Hp, Hr, Hf, Hc,
      Ep, Er, Ef, Ec, Lp, Lr, Lf, Lc.
    destruct Hz as [-> | ->]; cbn; repeat split; lia.
  - unfold tallied. rewrite header_events. cbn. auto.
Qed.

(** X11. The summary counts the lines printed. When a run ends, the counts
    line of its summary, the only one in the output, reports as sent the
    number of network calls made, as successful the number of reply lines
    printed and as failed the number of failure lines printed. *)
Theorem summary_counts_the_lines_printed :
  forall (fuel : nat) (cfg : Config) (s1 : Sys),
    count cfg <= max_int64 ->
    main w fuel cfg start = (Ret tt, s1) ->
    flat_map counts_line (trace s1)
    = [(Z.of_nat (List.length (filter is_probe (trace s1))),
        Z.of_nat (List.length (filter is_reply (trace s1))),
        Z.of_nat (List.length (filter is_failure_line (trace s1))))].
Proof.
  intros fuel cfg s1 Hmax H. unfold main in H.
  apply bind_inv in H as (st & s0 & Hrun & H).
  rewrite printSummary_run in H. injection H as <-. cbn [trace].
  destruct (tallied_at_break fuel cfg st s0 Hrun) as (Hp & Hr & Hf & Hc).
  destruct (completed_run w fuel cfg st s0 Hmax Hrun)
    as (_ & Hc1 & Hlen & Hsc & _).
  destruct (summary_probes (results st) (successCount st) (totalTime st))
    as [Sp _].
  pose proof (successes_failures (results st)) as Hsf.
  assert (wrap64 (len (results st) - successCount st)
          = len (failures (results st))) as Hw.
  { rewrite Hsc. unfold len in *. rewrite wrap64_small;
      [lia | unfold in_int64, min_int64, max_int64 in *; lia]. }
  rewrite !filter_app, !flat_map_app, !length_app, Hc, Hp, Hr, Hf, Sp.
  rewrite summary_lines, Hw, Hsc. unfold len.
  destruct (_ >? 0); cbn; rewrite ?Nat.add_0_r; reflexivity.
Qed.

End Recorded.

(** ** The order of the latency statistics *)

Lemma total_time_bounds (rs : list PingResult) (a b : Z) :
  (forall r, In r rs -> a <= ResponseTime r <= b) ->
  len rs * a <= total_time rs <= len rs * b.
Proof.
  unfold total_time, len. induction rs as [|r rs IH]; intros H.
  - cbn. lia.
  - pose proof (H r (or_introl eq_refl)).
    pose proof (IH (fun r0 Hr => H r0 (or_intror Hr))).
    cbn [fold_right List.length]. lia.
Qed.

Lemma total_time_member (rs : list PingResult) (x : Z) :
  (forall r, In r rs -> 0 <= ResponseTime r) ->
  In x (map ResponseTime rs) -> x <= total_time rs.
Proof.
  induction rs as [|r rs IH]; intros H Hin; [contradiction|].
  pose proof (H r (or_introl eq_refl)).
  pose proof (total_time_nonneg rs (fun r0 Hr => H r0 (or_intror Hr))).
  unfold total_time in *. cbn [fold_right]. destruct Hin as [<-|Hin].
  - lia.
  - pose proof (IH (fun r0 Hr => H r0 (or_intror Hr)) Hin). lia.
Qed.

(** Rounding to a unit keeps the order of durations. *)
Lemma Round_monotone (d1 d2 m : Z) :
  0 < m -> 0 <= d1 <= d2 -> d2 + m <= max_int64 ->
  0 <= Duration.Round d1 m <= Duration.Round d2 m.
Proof.
  intros Hm Hd Hmax. rewrite !Round_nonneg by lia. split.
  - apply Z.mul_nonneg_nonneg; [apply Z.div_pos|]; lia.
  - apply Z.mul_le_mono_nonneg_r; [lia|]. apply Z.div_le_mono; lia.
Qed.

(** X12. The latency statistics are printed in order. When a run ends with
    a successful attempt, the response times of the successful attempts
    being non-negative with a sum that fits a duration, the minimum, the
    average and the maximum of the summary satisfy
    [0 <= min <= average <= max]. *)
Theorem summary_statistics_are_ordered :
  forall (w : World) (fuel : nat) (cfg : Config) (st : Loop) (s1 : Sys),
    count cfg <= max_int64 ->
    run_loop w fuel cfg start = (Ret st, s1) ->
    let ok := successes (results st) in
    ok <> [] ->
    (forall r, In r ok -> 0 <= ResponseTime r) ->
    total_time ok + Duration.Millisecond <= max_int64 ->
    exists (before after : list Event) (avg mn mx : Z),
      summary (results st) (successCount st) (totalTime st)
      = before ++ [EvPrint (MsgAverage avg); EvPrint (MsgMinMax mn mx)]
          ++ after /\
      0 <= mn <= avg /\ avg <= mx.
Proof.
  intros w fuel cfg st s1 Hmax Hrun ok Hne Hnn Hfit.
  destruct (completed_run w fuel cfg st s1 Hmax Hrun)
    as (_ & _ & _ & Hsc & Htot).
  fold ok in Hsc, Htot.
  destruct (minmax_spec (results st) Hne) as (mn & mx & Emm & Imn & Imx & Hall).
  fold ok in Imn, Imx, Hall.
  pose proof (total_time_nonneg ok Hnn) as Htn.
  pose proof (total_time_member ok mx Hnn Imx) as Hmx.
  pose proof (total_time_bounds ok mn mx Hall) as [Hlo Hhi].
  assert (1 <= len ok) as Hlen
    by (unfold len; destruct ok; [contradiction | cbn [List.length]; lia]).
  assert (0 <= mn) as Hmn0.
  { apply in_map_iff in Imn as (r & <- & Hr). apply Hnn, Hr. }
  assert (mn <= mx) as Hmm.
  { apply in_map_iff in Imn as (r & <- & Hr). apply Hall, Hr. }
  unfold Duration.Millisecond, max_int64 in *.
  assert (wrap64 (total_time ok) = total_time ok) as Hw
    by (apply wrap64_small; unfold in_int64, min_int64, max_int64; lia).
  set (avg := total_time ok / len ok).
  assert (mn <= avg) as Ha1 by (apply Z.div_le_lower_bound; lia).
  assert (avg <= mx) as Ha2 by (apply Z.div_le_upper_bound; lia).
  assert (wrap64 (Z.quot (total_time ok) (len ok)) = avg) as Hq.
  { rewrite Z.quot_div_nonneg by lia. apply wrap64_small.
    unfold in_int64, min_int64, max_int64. fold avg. lia. }
  exists [EvPrint MsgSummaryTitle;
          EvPrint (MsgCounts (len (results st)) (successCount st)
                     (wrap64 (len (results st) - successCount st))
                     (percent (wrap64 (len (results st) - successCount st))
                        (len (results st))))].
  eexists.
  exists (Duration.Round avg 1000000), (Duration.Round mn 1000000),
    (Duration.Round mx 1000000).
  split.
  - rewrite summary_lines, Htot, Hsc, Hw, Hq, Emm.
    replace (len ok >? 0) with true
      by (symmetry; rewrite Z.gtb_ltb; apply Z.ltb_lt; lia).
    reflexivity.
  - pose proof (Round_monotone mn avg 1000000) as R1.
    pose proof (Round_monotone avg mx 1000000) as R2.
    unfold max_int64 in *. lia.
Qed.

(** ** Runs without a failure and runs without a success *)

Lemma percent_zero (n : Z) : 1 <= n < 2 ^ 48 -> percent 0 n = FFin 0 0.
Proof.
  intros Hn. unfold percent.
  destruct (of_int_exact n ltac:(lia)) as (mn & en & -> & Hmn & _).
  cbn [of_int round_rat fdiv].
  replace (mn =? 0) with false by (symmetry; apply Z.eqb_neq; lia).
  reflexivity.
Qed.

(** A float of value 100 prints as [100.0] and is the rate of the verdict
    "excellent". *)
Lemma percent_all (n : Z) :
  1 <= n < 2 ^ 48 ->
  fmt_f1 (percent n n) = "100.0" /\
  health (percent n n) = (excellent, ColorGreen).
Proof.
  intros Hn.
  destruct (percent_spec n n Hn ltac:(lia)) as (m & e & -> & Hm & V & _).
  specialize (V eq_refl). split.
  - destruct (fmt_tenths_near m e) as (t & Ht & _ & Hnear).
    rewrite V in Hnear.
    assert (t = 1000) as ->.
    { assert (999 < t) by (apply lt_IZR; lra).
      assert (t < 1001) by (apply lt_IZR; lra). lia. }
    unfold fmt_f1. rewrite Ht.
    replace (m <? 0) with false by (symmetry; apply Z.ltb_ge; lia).
    reflexivity.
  - destruct (of_int_exact 100 ltac:(lia)) as (m1 & e1 & E1 & _ & V1).
    unfold health. rewrite E1.
    assert (feqb (FFin m e) (FFin m1 e1) = true) as ->
      by (apply feqb_F2R; rewrite V1; exact V).
    reflexivity.
Qed.

(** X13. The two uniform runs. When a run ends and no attempt succeeded,
    the summary is the title, the counts line with a loss printed as
    [100.0] and the verdict "poor" in red, without latency lines. When no
    attempt failed, the loss is printed as [0.0], the two latency lines
    follow and the verdict is "excellent" in green. *)
Theorem summary_of_uniform_runs :
  forall (w : World) (fuel : nat) (cfg : Config) (st : Loop) (s1 : Sys),
    count cfg < 2 ^ 48 ->
    run_loop w fuel cfg start = (Ret st, s1) ->
    let rs := results st in
    let N := len rs in
    (successes rs = [] ->
     exists loss : float64,
       summary rs (successCount st) (totalTime st)
       = [EvPrint MsgSummaryTitle; EvPrint (MsgCounts N 0 N loss);
          EvPrint (MsgHealth ColorRed poor)] /\
       fmt_f1 loss = "100.0") /\
    (failures rs = [] ->
     exists (loss : float64) (avg mn mx : Z),
       summary rs (successCount st) (totalTime st)
       = [EvPrint MsgSummaryTitle; EvPrint (MsgCounts N N 0 loss);
          EvPrint (MsgAverage avg); EvPrint (MsgMinMax mn mx);
          EvPrint (MsgHealth ColorGreen excellent)] /\
       fmt_f1 loss = "0.0").
Proof.
  intros w fuel cfg st s1 Hcount Hrun rs N.
  assert (count cfg <= max_int64) as Hmax by (unfold max_int64; lia).
  destruct (completed_run w fuel cfg st s1 Hmax Hrun)
    as (_ & Hc1 & Hlen & Hsc & _).
  fold rs in Hlen, Hsc. fold N in Hlen.
  assert (1 <= N < 2 ^ 48) as HN by lia.
  destruct (percent_all N HN) as [Hfmt Hhealth].
  pose proof (percent_zero N HN) as Hzero.
  pose proof (successes_failures rs) as Hsf.
  split; intros Hnone.
  - rewrite Hnone in Hsc. cbn in Hsc.
    exists (percent N N). split; [|exact Hfmt].
    rewrite summary_lines. fold rs N. rewrite Hsc, Z.sub_0_r.
    rewrite wrap64_small
      by (unfold in_int64, min_int64, max_int64 in *; lia).
    rewrite Hzero. reflexivity.
  - rewrite Hnone in Hsf. cbn [List.length] in Hsf.
    assert (successCount st = N) as HscN by (unfold N, len in *; lia).
    exists (percent 0 N). do 3 eexists. split; [|rewrite Hzero; reflexivity].
    rewrite summary_lines. fold rs N. rewrite HscN, Z.sub_diag, Hhealth.
    replace (N >? 0) with true
      by (symmetry; rewrite Z.gtb_ltb; apply Z.ltb_lt; lia).
    reflexivity.
Qed.

(** ** The further properties on the sample runs *)

Lemma continuous_mode_ignores_count_witness :
  main sample_world 3 (with_count 1 (with_continuous true sample_cfg)) start
  = main sample_world 3 (with_count 100 (with_continuous true sample_cfg)) start.
Proof.
  exact (proj2 (continuous_mode_ignores_count sample_world 3
                  (with_continuous true sample_cfg) 1 100 start eq_refl)).
Defined.

Lemma unbounded_mode_turns_witness :
  exists s' : Sys,
    main sample_world 3 (with_continuous true sample_cfg) start = (Running, s') /\
    List.length (filter is_probe (trace s')) = 3%nat /\
    filter is_sleep (trace s') = repeat (EvSleep 1000000000) 3.
Proof.
  destruct (unbounded_mode_turns sample_world
              (with_continuous true sample_cfg) 3)
    as (rs & s' & Hm & _ & _ & Hp & _ & Hs).
  - discriminate.
  - left. reflexivity.
  - reflexivity.
  - unfold max_int64. cbn. lia.
  - exists s'. split; [exact Hm|]. split; [exact Hp | exact Hs].
Defined.

Lemma icmp_mode_is_tcp_mode_with_notice_witness :
  fst (main sample_world 5 (with_type "ICMP" sample_cfg) start)
  = fst (main sample_world 5 (with_type "tcp" sample_cfg) start) /\
  List.length
    (filter is_notice
       (trace (snd (main sample_world 5 (with_type "ICMP" sample_cfg) start))))
  = 4%nat.
Proof.
  destruct (icmp_mode_is_tcp_mode_with_notice sample_world 5 sample_cfg
              "ICMP" "tcp" eq_refl eq_refl)
    as (_ & E & _ & _ & Hn & _).
  split; [exact E|]. rewrite Hn. vm_compute. reflexivity.
Defined.

Lemma recorded_results_are_sound_witness :
  exists (st : Loop) (s1 : Sys),
    run_loop sample_world 5 sample_cfg start = (Ret st, s1) /\
    Forall (sound_result sample_cfg) (results st).
Proof.
  eexists. eexists. split; [vm_compute; reflexivity|].
  apply (recorded_results_are_sound sample_world 5 sample_cfg _
           {| calls := 4;
              trace := trace (snd (run_loop sample_world 5 sample_cfg start)) |}).
  vm_compute. reflexivity.
Defined.

Lemma summary_counts_the_lines_printed_witness :
  exists s1 : Sys,
    main sample_world 5 sample_cfg start = (Ret tt, s1) /\
    flat_map counts_line (trace s1) = [(4, 2, 2)].
Proof.
  eexists. split; [vm_compute; reflexivity|].
  match goal with
  | |- flat_map counts_line (trace ?s) = _ =>
      pose proof (summary_counts_the_lines_printed sample_world 5 sample_cfg s)
        as H
  end.
  rewrite H.
  - reflexivity.
  - unfold max_int64. cbn. lia.
  - vm_compute. reflexivity.
Defined.

Lemma summary_statistics_are_ordered_witness :
  exists (st : Loop) (s1 : Sys),
    run_loop sample_world 5 sample_cfg start = (Ret st, s1) /\
    exists (before after : list Event) (avg mn mx : Z),
      summary (results st) (successCount st) (totalTime st)
      = before ++ [EvPrint (MsgAverage avg); EvPrint (MsgMinMax mn mx)]
          ++ after /\
      0 <= mn <= avg /\ avg <= mx.
Proof.
  eexists. eexists. split; [vm_compute; reflexivity|].
  apply (summary_statistics_are_ordered sample_world 5 sample_cfg _
           {| calls := 4;
              trace := trace (snd (run_loop sample_world 5 sample_cfg start)) |}).
  - unfold max_int64. cbn. lia.
  - vm_compute. reflexivity.
  - discriminate.
  - intros r [<-|[<-|[]]]; cbn; lia.
  - unfold max_int64. cbn. lia.
Defined.

Lemma summary_of_uniform_runs_witness :
  exists (st : Loop) (s1 : Sys),
    run_loop world_404 5 sample_cfg start = (Ret st, s1) /\
    exists (loss : float64) (avg mn mx : Z),
      summary (results st) (successCount st) (totalTime st)
      = [EvPrint MsgSummaryTitle; EvPrint (MsgCounts 4 4 0 loss);
         EvPrint (MsgAverage avg); EvPrint (MsgMinMax mn mx);
         EvPrint (MsgHealth ColorGreen excellent)] /\
      fmt_f1 loss = "0.0".
Proof.
  eexists. eexists. split; [vm_compute; reflexivity|].
  match goal with
  | |- exists loss avg mn mx, summary (results ?st) _ _ = _ /\ _ =>
      destruct (summary_of_uniform_runs world_404 5 sample_cfg st
                  {| calls := 4;
                     trace := trace (snd (run_loop world_404 5 sample_cfg start)) |})
        as [_ H]
  end.
  - cbn. lia.
  - vm_compute. reflexivity.
  - apply H. reflexivity.
Defined.
